(** * Code-Runner: the [POST /execute] gateway of [server.js]

    A shallow embedding of the request handler and of [pullImage].  The
    handler is written in a state and exception monad, statement by
    statement, over a model of what it touches: JavaScript values as
    [express.json()] parses them (strings as UTF-16 code units, property
    reads through [Object.prototype]), the console, the response, and the
    container runtime with the requests it receives.  What the runtime does
    during a request, which operations fail and what the container prints,
    is a parameter of the run.

    The definitions come first: values, effects, the runtime, the handler,
    then what is observed of a run and the sample inputs.  The properties
    follow. *)

From Stdlib Require Import List ZArith NArith Bool Lia.
From Stdlib Require Ascii String DecimalString.
Import ListNotations String.StringSyntax.

Set Warnings "-register-all".

Local Open Scope string_scope.
Local Open Scope Z_scope.
Local Open Scope list_scope.

(** ** JavaScript strings *)

(** A JavaScript string is a sequence of UTF-16 code units. *)
Definition jsstring := list N.

(** The code units of an ASCII literal of the source. *)
Definition js (s : String.string) : jsstring :=
  map Ascii.N_of_ascii (String.list_ascii_of_string s).

Fixpoint str_eqb (a b : jsstring) : bool :=
  match a, b with
  | [], [] => true
  | x :: a', y :: b' => N.eqb x y && str_eqb a' b'
  | _, _ => false
  end.

(** White space and line terminators, the code units [String.prototype.trim]
    strips: TAB, LF, VT, FF, CR, SP, NBSP, U+1680, U+2000..U+200A, U+2028,
    U+2029, U+202F, U+205F, U+3000 and U+FEFF. *)
Definition is_space (c : N) : bool :=
  ((9 <=? c) && (c <=? 13) || (c =? 32) || (c =? 160) || (c =? 5760)
   || (8192 <=? c) && (c <=? 8202) || (c =? 8232) || (c =? 8233)
   || (c =? 8239) || (c =? 8287) || (c =? 12288) || (c =? 65279))%N.

Fixpoint trimStart (s : jsstring) : jsstring :=
  match s with
  | c :: s' => if is_space c then trimStart s' else s
  | [] => []
  end.

Definition trimEnd (s : jsstring) : jsstring := rev (trimStart (rev s)).

(** [s.trim()] *)
Definition trim (s : jsstring) : jsstring := trimEnd (trimStart s).

(** [s.substring(0, n)] *)
Definition substring0 (n : nat) (s : jsstring) : jsstring := firstn n s.

(** ** JavaScript values *)

(** The values of the handler: what [express.json()] parses out of a body
    ([JUndefined] for a field that is absent), and the two kinds of built-in
    object a property read can reach through [Object.prototype].  Numbers are
    the integer-valued ones below 10^21 in magnitude, where the number's string
    form is its decimal numeral. *)
Inductive JsValue : Type :=
| JUndefined
| JNull
| JBool (b : bool)
| JNum (z : Z)
| JStr (s : jsstring)
| JArr (elems : list JsValue)
| JObj (props : list (jsstring * JsValue))
| JFunction (name : jsstring)
| JObjectPrototype.

(** ToBoolean *)
Definition truthy (v : JsValue) : bool :=
  match v with
  | JUndefined | JNull => false
  | JBool b => b
  | JNum z => negb (z =? 0)
  | JStr s => match s with [] => false | _ => true end
  | JArr _ | JObj _ | JFunction _ | JObjectPrototype => true
  end.

(** [a || b] *)
Definition js_or (a b : JsValue) : JsValue := if truthy a then a else b.

(** [v === null] *)
Definition is_null (v : JsValue) : bool :=
  match v with JNull => true | _ => false end.

(** [v === lit] for a string literal [lit] *)
Definition strict_eq_str (v : JsValue) (lit : jsstring) : bool :=
  match v with JStr s => str_eqb s lit | _ => false end.

(** Own property of an object built by an object literal or by [JSON.parse]:
    the last definition of a key wins. *)
Fixpoint own_property (props : list (jsstring * JsValue)) (k : jsstring)
  : option JsValue :=
  match props with
  | [] => None
  | (k', v) :: rest =>
      match own_property rest k with
      | Some w => Some w
      | None => if str_eqb k' k then Some v else None
      end
  end.

(** The string-keyed properties every ordinary object inherits. *)
Definition Object_prototype : list (jsstring * JsValue) :=
  [ (js "constructor", JFunction (js "Object"));
    (js "__defineGetter__", JFunction (js "__defineGetter__"));
    (js "__defineSetter__", JFunction (js "__defineSetter__"));
    (js "hasOwnProperty", JFunction (js "hasOwnProperty"));
    (js "__lookupGetter__", JFunction (js "__lookupGetter__"));
    (js "__lookupSetter__", JFunction (js "__lookupSetter__"));
    (js "isPrototypeOf", JFunction (js "isPrototypeOf"));
    (js "propertyIsEnumerable", JFunction (js "propertyIsEnumerable"));
    (js "toString", JFunction (js "toString"));
    (js "valueOf", JFunction (js "valueOf"));
    (js "__proto__", JObjectPrototype);
    (js "toLocaleString", JFunction (js "toLocaleString")) ].

(** [obj[k]] for an ordinary object with own properties [props]: the own
    property, else the inherited one, else [undefined]. *)
Definition get (props : list (jsstring * JsValue)) (k : jsstring) : JsValue :=
  match own_property props k with
  | Some v => v
  | None =>
      match own_property Object_prototype k with
      | Some v => v
      | None => JUndefined
      end
  end.

(** [Array.prototype.join] with the separator [","], over the string forms
    of the elements. *)
Fixpoint join_comma (parts : list jsstring) : jsstring :=
  match parts with
  | [] => []
  | [p] => p
  | p :: rest => p ++ js "," ++ join_comma rest
  end.

Fixpoint sequence_opt {A : Type} (l : list (option A)) : option (list A) :=
  match l with
  | [] => Some []
  | None :: _ => None
  | Some a :: rest =>
      match sequence_opt rest with
      | Some r => Some (a :: r)
      | None => None
      end
  end.

(** ToString, as a property key or a template literal applies it; [None] is
    the TypeError of an object that cannot be converted to a primitive (an
    object parsed from JSON whose own [toString] property shadows the
    inherited method, so that neither [toString] nor [valueOf] yields a
    primitive). *)
Fixpoint ToString (v : JsValue) : option jsstring :=
  match v with
  | JUndefined => Some (js "undefined")
  | JNull => Some (js "null")
  | JBool true => Some (js "true")
  | JBool false => Some (js "false")
  | JNum z => Some (js (DecimalString.NilZero.string_of_int (Z.to_int z)))
  | JStr s => Some s
  | JArr elems =>
      option_map join_comma
        (sequence_opt
           (map (fun e => match e with
                          | JUndefined | JNull => Some []
                          | _ => ToString e
                          end) elems))
  | JObj props =>
      match own_property props (js "toString") with
      | Some _ => None
      | None => Some (js "[object Object]")
      end
  | JFunction name => Some (js "function " ++ name ++ js "() { [native code] }")
  | JObjectPrototype => Some (js "[object Object]")
  end.

(** ** Errors, responses, console lines *)

(** A value that is thrown or that rejects a promise: an error object raised
    by the runtime client, with its [message] property ([JUndefined] when it
    has none) and its stack trace; the [new Error(message)] of the handler; a
    TypeError of the engine. *)
Inductive Thrown : Type :=
| ErrorObject (message : JsValue) (stack : jsstring)
| NewError (message : jsstring)
| TypeError (message : jsstring).

(** [error.message] *)
Definition message_of (e : Thrown) : JsValue :=
  match e with
  | ErrorObject m _ => m
  | NewError m => JStr m
  | TypeError m => JStr m
  end.

Definition not_primitive : Thrown :=
  TypeError (js "Cannot convert object to primitive value").

(** [res.status(status).json(body)] *)
Record Response : Type := mkResponse {
  status : Z;
  body : list (jsstring * JsValue)
}.

(** The options object of [docker.createContainer]. *)
Record HostConfig : Type := mkHostConfig {
  CpuShares : Z;
  Memory : Z;
  NetworkMode : jsstring
}.

Record CreateOptions : Type := mkCreateOptions {
  Image : JsValue;
  Cmd : list JsValue;
  Tty : bool;
  Host : HostConfig
}.

(** A container of the runtime's container list. *)
Record Container : Type := mkContainer {
  id : jsstring;
  options : CreateOptions
}.

(** The requests the handler sends to the container runtime, in order. *)
Inductive Call : Type :=
| ListImages (reference : JsValue)
| Pull (reference : JsValue)
| FollowProgress (reference : JsValue)
| CreateContainer (opts : CreateOptions)
| Attach (container_id : jsstring)
| Start (container_id : jsstring)
| Wait (container_id : jsstring) (timeout : Z)
| Remove (container_id : jsstring).

(** The lines written with [console.log] and [console.error]; a line keeps
    the values its template interpolates, and an error line the thrown
    object the console prints (stack trace included). *)
Inductive LogEntry : Type :=
| LogAttempt (language imageName : JsValue)
| LogChecking (imageName : JsValue)
| LogPulling (imageName : JsValue)
| LogPulled (imageName : JsValue)
| LogFoundLocally (imageName : JsValue)
| LogStarted (short_id : jsstring)
| LogFinished (statusCode : JsValue)
| LogRemoved (short_id : jsstring)
| LogAttachError (err : Thrown)
| LogExecutionError (error : Thrown)
| LogRemoveError (removeError : Thrown).

(** ** The state the handler runs in *)

Record State : Type := mkState {
  (* the container runtime *)
  images : list jsstring;          (* references of the local images *)
  containers : list Container;     (* the runtime's container list *)
  (* what the process has done so far *)
  calls : list Call;               (* requests sent to the runtime *)
  console : list LogEntry;
  sent : list Response;            (* responses written to [res] *)
  (* the variables of one invocation of the handler *)
  container : option Container;    (* [let container] *)
  output : jsstring;               (* [let output] *)
  piped : bool                     (* the attached stream feeds [logStream] *)
}.

Definition set_images (f : list jsstring -> list jsstring) (s : State) :=
  mkState (f (images s)) (containers s) (calls s) (console s) (sent s)
          (container s) (output s) (piped s).
Definition set_containers (f : list Container -> list Container) (s : State) :=
  mkState (images s) (f (containers s)) (calls s) (console s) (sent s)
          (container s) (output s) (piped s).
Definition add_call (c : Call) (s : State) :=
  mkState (images s) (containers s) (calls s ++ [c]) (console s) (sent s)
          (container s) (output s) (piped s).
Definition add_console (l : LogEntry) (s : State) :=
  mkState (images s) (containers s) (calls s) (console s ++ [l]) (sent s)
          (container s) (output s) (piped s).
Definition add_sent (r : Response) (s : State) :=
  mkState (images s) (containers s) (calls s) (console s) (sent s ++ [r])
          (container s) (output s) (piped s).
Definition set_container (c : option Container) (s : State) :=
  mkState (images s) (containers s) (calls s) (console s) (sent s)
          c (output s) (piped s).
Definition set_output (o : jsstring) (s : State) :=
  mkState (images s) (containers s) (calls s) (console s) (sent s)
          (container s) o (piped s).
Definition set_piped (b : bool) (s : State) :=
  mkState (images s) (containers s) (calls s) (console s) (sent s)
          (container s) (output s) b.

(** ** What the environment does during one request *)

(** How [container.attach(opts, callback)] goes: the call throws or the
    awaited value is a rejected promise; the callback is called with [err]
    set; the callback is called with the container's stream; the callback
    is not called while the request is handled. *)
Inductive AttachOutcome : Type :=
| AttachThrows (e : Thrown)
| AttachCallbackError (err : Thrown)
| AttachCallbackStream
| AttachPending.

(** What [container.wait] settles to: a rejection, or the object the runtime
    answered with. *)
Inductive WaitOutcome : Type :=
| WaitRejects (e : Thrown)
| WaitResolves (waitResult : list (jsstring * JsValue)).

(** The runtime's side of one request: which of its operations fail (and
    with what), the identifier it gives the new container, the chunks the
    container's stream carries while the handler awaits [start] and [wait]
    (each chunk given by its [toString('utf8')]), and what [wait] yields. *)
Record Env : Type := mkEnv {
  listImages_fault : option Thrown;
  pull_fault : option Thrown;
  followProgress_fault : option Thrown;
  createContainer_fault : option Thrown;
  new_container_id : jsstring;
  attach_outcome : AttachOutcome;
  start_fault : option Thrown;
  data_during_start : list jsstring;
  wait_outcome : WaitOutcome;
  data_during_wait : list jsstring;
  remove_fault : option Thrown
}.

(** ** Computations: state, exceptions, try/catch/finally *)

Inductive Completion (A : Type) : Type :=
| Normal (a : A)
| Throw (e : Thrown).
Arguments Normal {A} a.
Arguments Throw {A} e.

Definition M (A : Type) : Type := State -> Completion A * State.

Definition ret {A} (a : A) : M A := fun s => (Normal a, s).

Definition bind {A B} (m : M A) (k : A -> M B) : M B :=
  fun s =>
    match m s with
    | (Normal a, s') => k a s'
    | (Throw e, s') => (Throw e, s')
    end.

Definition throw {A} (e : Thrown) : M A := fun s => (Throw e, s).

Definition modify (f : State -> State) : M unit := fun s => (Normal tt, f s).

Definition gets {A} (f : State -> A) : M A := fun s => (Normal (f s), s).

(** [try { body } catch (e) { handler e }] *)
Definition try_catch {A} (body : M A) (handler : Thrown -> M A) : M A :=
  fun s =>
    match body s with
    | (Normal a, s') => (Normal a, s')
    | (Throw e, s') => handler e s'
    end.

(** [try { body } finally { fin }]: [fin] runs however [body] completes, and
    the completion of [body] stands unless [fin] itself throws. *)
Definition try_finally {A} (body : M A) (fin : M unit) : M A :=
  fun s =>
    match body s with
    | (c, s') =>
        match fin s' with
        | (Normal _, s'') => (c, s'')
        | (Throw e, s'') => (Throw e, s'')
        end
    end.

Declare Scope js_scope.
Delimit Scope js_scope with js.
Notation "x <- m ;; k" := (bind m (fun x => k))
  (at level 100, m at next level, right associativity) : js_scope.
Notation "m ;; k" := (bind m (fun _ => k))
  (at level 100, right associativity) : js_scope.
Local Open Scope js_scope.

Definition console_log (l : LogEntry) : M unit := modify (add_console l).
Definition console_error (l : LogEntry) : M unit := modify (add_console l).

(** [res.status(code).json(body)] *)
Definition res_json (code : Z) (b : list (jsstring * JsValue)) : M unit :=
  modify (add_sent (mkResponse code b)).

(** A value interpolated in a template literal: its conversion to a string
    can throw. *)
Definition interpolate (v : JsValue) : M unit :=
  match ToString v with
  | Some _ => ret tt
  | None => throw not_primitive
  end.

(** A request to the runtime that either fails as the environment says or
    has its effect on the runtime. *)
Definition request (c : Call) (fault : option Thrown) (effect : State -> State)
  : M unit :=
  modify (add_call c) ;;
  match fault with
  | Some e => throw e
  | None => modify effect
  end.

(** The ['data'] listener of [logStream], once per chunk the stream carries
    while the handler is suspended; nothing reaches [logStream] unless the
    attached stream has been demultiplexed into it. *)
Definition on_data (chunk : jsstring) (s : State) : State :=
  set_output (output s ++ chunk) s.

Definition deliver (chunks : list jsstring) : M unit :=
  modify (fun s => if piped s then fold_left (fun s c => on_data c s) chunks s
                   else s).

(** ** The container runtime, as the handler uses it *)

(** The runtime and its client library are outside the repository.  Each
    operation is a request the environment may fail; one that does not fail
    has the effect the operation stands for and no other: a listing returns
    the local images whose reference is the one asked for, a pull followed to
    its end stores the image, a creation adds a container under the
    identifier the runtime chooses, a removal takes the container off the
    list. *)

(** The local images a reference filter selects. *)
Definition local_images (reference : JsValue) (local : list jsstring)
  : list jsstring :=
  match reference with
  | JStr r => filter (str_eqb r) local
  | _ => []
  end.

(** The image store once a pull of [reference] has completed. *)
Definition store_image (reference : JsValue) (local : list jsstring)
  : list jsstring :=
  match reference with
  | JStr r => r :: local
  | _ => local
  end.

(** [docker.listImages({ filters: { reference: [imageName] } })] *)
Definition listImages (env : Env) (imageName : JsValue) : M (list jsstring) :=
  request (ListImages imageName) (listImages_fault env) (fun s => s) ;;
  gets (fun s => local_images imageName (images s)).

(** [docker.pull(imageName)] *)
Definition pull (env : Env) (imageName : JsValue) : M unit :=
  request (Pull imageName) (pull_fault env) (fun s => s).

(** [docker.modem.followProgress(stream, ...)], wrapped in a promise that
    settles when the pull is over. *)
Definition followProgress (env : Env) (imageName : JsValue) : M unit :=
  request (FollowProgress imageName) (followProgress_fault env)
          (set_images (store_image imageName)).

(** [docker.createContainer(opts)] *)
Definition createContainer (env : Env) (opts : CreateOptions) : M Container :=
  let c := mkContainer (new_container_id env) opts in
  request (CreateContainer opts) (createContainer_fault env)
          (set_containers (fun l => l ++ [c])) ;;
  ret c.

(** [container.attach({ stream: true, stdout: true, stderr: true }, callback)]
    with the callback of the handler: an [err] is written to the console and
    nothing else happens; a stream is demultiplexed into [logStream].  The
    callback is taken to run while the handler awaits the call; one that
    runs later moves its console line and leaves the stream less time to
    deliver, which [data_during_start] and [data_during_wait] already
    range over. *)
Definition attach (env : Env) (c : Container) : M unit :=
  modify (add_call (Attach (id c))) ;;
  match attach_outcome env with
  | AttachThrows e => throw e
  | AttachCallbackError err => console_error (LogAttachError err)
  | AttachCallbackStream => modify (set_piped true)
  | AttachPending => ret tt
  end.

(** [container.start()] *)
Definition start (env : Env) (c : Container) : M unit :=
  request (Start (id c)) (start_fault env) (fun s => s) ;;
  deliver (data_during_start env).

(** [container.wait({ timeout })] *)
Definition wait (env : Env) (c : Container) (timeout : Z)
  : M (list (jsstring * JsValue)) :=
  modify (add_call (Wait (id c) timeout)) ;;
  deliver (data_during_wait env) ;;
  match wait_outcome env with
  | WaitRejects e => throw e
  | WaitResolves waitResult => ret waitResult
  end.

(** [container.remove()] *)
Definition remove (env : Env) (c : Container) : M unit :=
  request (Remove (id c)) (remove_fault env)
          (set_containers
             (filter (fun c' => negb (str_eqb (id c') (id c))))).

(** ** server.js *)

Definition languageImageMap : list (jsstring * JsValue) :=
  [ (js "python", JStr (js "python:3.9-slim"));
    (js "javascript", JStr (js "node:18-alpine")) ].

(** [async function pullImage(imageName)] *)
Definition pullImage (env : Env) (imageName : JsValue) : M unit :=
  interpolate imageName ;;
  console_log (LogChecking imageName) ;;
  images <- listImages env imageName ;;
  if (Z.of_nat (length images) =? 0) then
    console_log (LogPulling imageName) ;;
    pull env imageName ;;
    followProgress env imageName ;;
    console_log (LogPulled imageName)
  else
    console_log (LogFoundLocally imageName).

(** The body of the [try] block of the handler. *)
Definition try_block (env : Env) (language code imageName : JsValue)
                     (cmd : list JsValue) : M unit :=
  interpolate language ;;
  interpolate imageName ;;
  console_log (LogAttempt language imageName) ;;
  pullImage env imageName ;;
  c <- createContainer env
         {| Image := imageName;
            Cmd := cmd;
            Tty := false;
            Host := {| CpuShares := 512;
                       Memory := 256 * 1024 * 1024;
                       NetworkMode := js "none" |} |} ;;
  modify (set_container (Some c)) ;;
  modify (set_piped false) ;;
  modify (set_output []) ;;
  attach env c ;;
  start env c ;;
  console_log (LogStarted (substring0 12 (id c))) ;;
  waitResult <- wait env c 10000 ;;
  if is_null (get waitResult (js "StatusCode")) then
    throw (NewError (js "Execution timed out."))
  else
    interpolate (get waitResult (js "StatusCode")) ;;
    console_log (LogFinished (get waitResult (js "StatusCode"))) ;;
    out <- gets output ;;
    res_json 200 [(js "output", JStr (trim out))].

(** The [catch (error)] block. *)
Definition catch_block (error : Thrown) : M unit :=
  console_error (LogExecutionError error) ;;
  res_json 500
    [(js "error",
      js_or (message_of error) (JStr (js "An error occurred during execution.")))].

(** The [finally] block. *)
Definition finally_block (env : Env) : M unit :=
  c <- gets container ;;
  match c with
  | Some c =>
      try_catch
        (remove env c ;;
         console_log (LogRemoved (substring0 12 (id c))))
        (fun removeError => console_error (LogRemoveError removeError))
  | None => ret tt
  end.

(** [let container; try { ... } catch (error) { ... } finally { ... }] *)
Definition guarded_run (env : Env) (language code imageName : JsValue)
                       (cmd : list JsValue) : M unit :=
  modify (set_container None) ;;
  try_finally
    (try_catch (try_block env language code imageName cmd) catch_block)
    (finally_block env).

(** [app.post('/execute', async (req, res) => ...)], on [req.body], the
    object [express.json()] parsed. *)
Definition execute (env : Env) (req_body : list (jsstring * JsValue)) : M unit :=
  let language := get req_body (js "language") in
  let code := get req_body (js "code") in
  if negb (truthy language) || negb (truthy code) then
    res_json 400 [(js "error", JStr (js "Language and code are required."))]
  else
    match ToString language with
    | None => throw not_primitive
    | Some key =>
        let imageName := get languageImageMap key in
        if negb (truthy imageName) then
          res_json 400 [(js "error", JStr (js "Unsupported language."))]
        else
          let cmd := if strict_eq_str language (js "python")
                     then [JStr (js "python"); JStr (js "-c"); code]
                     else [JStr (js "node"); JStr (js "-e"); code] in
          guarded_run env language code imageName cmd
    end.

(** * What is observed of a run *)

(** The requests one computation adds to those already sent. *)
Definition trace {A} (m : M A) (s : State) : list Call :=
  skipn (length (calls s)) (calls (snd (m s))).

Definition is_remove (c : Call) : bool :=
  match c with Remove _ => true | _ => false end.

Definition is_create (c : Call) : bool :=
  match c with CreateContainer _ => true | _ => false end.

(** ** Validation *)

(** The two checks a request has to pass before the [try] block runs. *)
Definition passes_validation (req_body : list (jsstring * JsValue)) : bool :=
  truthy (get req_body (js "language")) && truthy (get req_body (js "code"))
  && match ToString (get req_body (js "language")) with
     | Some key => truthy (get languageImageMap key)
     | None => false
     end.

(** [imageName] and [cmd], as the handler computes them. *)
Definition image_of (req_body : list (jsstring * JsValue)) : JsValue :=
  match ToString (get req_body (js "language")) with
  | Some key => get languageImageMap key
  | None => JUndefined
  end.

Definition cmd_of (req_body : list (jsstring * JsValue)) : list JsValue :=
  if strict_eq_str (get req_body (js "language")) (js "python")
  then [JStr (js "python"); JStr (js "-c"); get req_body (js "code")]
  else [JStr (js "node"); JStr (js "-e"); get req_body (js "code")].

Definition supported (language : JsValue) : Prop :=
  language = JStr (js "python") \/ language = JStr (js "javascript").

(** ** How a run ends *)

(** The text [logStream] has handed to the listener when [wait] returns. *)
Definition buffered (env : Env) : jsstring :=
  match attach_outcome env with
  | AttachCallbackStream =>
      concat (data_during_start env ++ data_during_wait env)
  | _ => []
  end.

(** The first thing that goes wrong inside the [try] block, if anything
    does: a request to the runtime that fails, an [attach] that throws, a
    [wait] whose result has a null status code (the timeout), or a status
    code the log line cannot print. *)
Definition first_failure (env : Env) (local : list jsstring)
                         (imageName : JsValue) : option Thrown :=
  match listImages_fault env with
  | Some e => Some e
  | None =>
  match (match local_images imageName local with
         | [] => match pull_fault env with
                 | Some e => Some e
                 | None => followProgress_fault env
                 end
         | _ :: _ => None
         end) with
  | Some e => Some e
  | None =>
  match createContainer_fault env with
  | Some e => Some e
  | None =>
  match attach_outcome env with
  | AttachThrows e => Some e
  | _ =>
  match start_fault env with
  | Some e => Some e
  | None =>
  match wait_outcome env with
  | WaitRejects e => Some e
  | WaitResolves waitResult =>
      if is_null (get waitResult (js "StatusCode"))
      then Some (NewError (js "Execution timed out."))
      else match ToString (get waitResult (js "StatusCode")) with
           | Some _ => None
           | None => Some not_primitive
           end
  end end end end end end.

Definition error_response (e : Thrown) : Response :=
  mkResponse 500
    [(js "error",
      js_or (message_of e) (JStr (js "An error occurred during execution.")))].

Definition output_response (out : jsstring) : Response :=
  mkResponse 200 [(js "output", JStr out)].

Definition required_response : Response :=
  mkResponse 400 [(js "error", JStr (js "Language and code are required."))].

Definition unsupported_response : Response :=
  mkResponse 400 [(js "error", JStr (js "Unsupported language."))].

Definition timeout_response : Response :=
  mkResponse 500 [(js "error", JStr (js "Execution timed out."))].

(** The image is there, or has been pulled. *)
Definition image_ready (env : Env) (local : list jsstring) (img : JsValue)
  : Prop :=
  listImages_fault env = None
  /\ (local_images img local = [] ->
      pull_fault env = None /\ followProgress_fault env = None).

(** Every operation of the run up to [wait] succeeds, and [wait] resolves
    with [waitResult]. *)
Definition reaches_wait_result (env : Env) (local : list jsstring)
    (imageName : JsValue) (waitResult : list (jsstring * JsValue)) : Prop :=
  image_ready env local imageName
  /\ createContainer_fault env = None
  /\ (forall e, attach_outcome env <> AttachThrows e)
  /\ start_fault env = None
  /\ wait_outcome env = WaitResolves waitResult.

(** ** The requests of a run *)

(** The options the handler passes to [docker.createContainer]. *)
Definition create_options (img : JsValue) (cmd : list JsValue) : CreateOptions :=
  {| Image := img; Cmd := cmd; Tty := false;
     Host := {| CpuShares := 512; Memory := 256 * 1024 * 1024;
                NetworkMode := js "none" |} |}.

(** The requests of a run in which nothing fails, up to the wait. *)
Definition plan (env : Env) (local : list jsstring) (img : JsValue)
                (cmd : list JsValue) : list Call :=
  ListImages img
  :: match local_images img local with
     | [] => [Pull img; FollowProgress img]
     | _ :: _ => []
     end
  ++ [CreateContainer (create_options img cmd);
      Attach (new_container_id env);
      Start (new_container_id env);
      Wait (new_container_id env) 10000].


(** The request gets past the check of its fields and its language has no
    string form. *)
Definition unconvertible (req_body : list (jsstring * JsValue)) : bool :=
  truthy (get req_body (js "language")) && truthy (get req_body (js "code"))
  && match ToString (get req_body (js "language")) with
     | Some _ => false
     | None => true
     end.

(** The names of the properties of [languageImageMap], own and inherited. *)
Definition accepted_languages : list jsstring :=
  map fst languageImageMap ++ map fst Object_prototype.

Definition plan_of (env : Env) (req_body : list (jsstring * JsValue))
                   (s : State) : list Call :=
  plan env (images s) (image_of req_body) (cmd_of req_body).

(** The first code unit of a property name of the map is a letter or an
    underscore. *)
Definition starts_with_letter (k : jsstring) : bool :=
  match k with
  | c :: _ => (95 <=? c)%N
  | [] => false
  end.

(** * Sample requests and runtimes *)

Definition fresh : State :=
  {| images := []; containers := []; calls := []; console := []; sent := [];
     container := None; output := []; piped := false |}.

Definition quiet : Env :=
  {| listImages_fault := None; pull_fault := None; followProgress_fault := None;
     createContainer_fault := None; new_container_id := js "0123456789abcdef";
     attach_outcome := AttachCallbackStream; start_fault := None;
     data_during_start := [];
     wait_outcome := WaitResolves [(js "StatusCode", JNum 0)];
     data_during_wait := []; remove_fault := None |}.

Definition with_data (chunks : list jsstring) (env : Env) : Env :=
  {| listImages_fault := listImages_fault env; pull_fault := pull_fault env;
     followProgress_fault := followProgress_fault env;
     createContainer_fault := createContainer_fault env;
     new_container_id := new_container_id env;
     attach_outcome := attach_outcome env; start_fault := start_fault env;
     data_during_start := data_during_start env;
     wait_outcome := wait_outcome env;
     data_during_wait := chunks; remove_fault := remove_fault env |}.

Definition with_wait (w : WaitOutcome) (env : Env) : Env :=
  {| listImages_fault := listImages_fault env; pull_fault := pull_fault env;
     followProgress_fault := followProgress_fault env;
     createContainer_fault := createContainer_fault env;
     new_container_id := new_container_id env;
     attach_outcome := attach_outcome env; start_fault := start_fault env;
     data_during_start := data_during_start env;
     wait_outcome := w;
     data_during_wait := data_during_wait env;
     remove_fault := remove_fault env |}.

Definition with_attach (a : AttachOutcome) (env : Env) : Env :=
  {| listImages_fault := listImages_fault env; pull_fault := pull_fault env;
     followProgress_fault := followProgress_fault env;
     createContainer_fault := createContainer_fault env;
     new_container_id := new_container_id env;
     attach_outcome := a; start_fault := start_fault env;
     data_during_start := data_during_start env;
     wait_outcome := wait_outcome env;
     data_during_wait := data_during_wait env;
     remove_fault := remove_fault env |}.

Definition with_remove_fault (f : option Thrown) (env : Env) : Env :=
  {| listImages_fault := listImages_fault env; pull_fault := pull_fault env;
     followProgress_fault := followProgress_fault env;
     createContainer_fault := createContainer_fault env;
     new_container_id := new_container_id env;
     attach_outcome := attach_outcome env; start_fault := start_fault env;
     data_during_start := data_during_start env;
     wait_outcome := wait_outcome env;
     data_during_wait := data_during_wait env;
     remove_fault := f |}.

Definition body_of (language code : jsstring) : list (jsstring * JsValue) :=
  [(js "language", JStr language); (js "code", JStr code)].

Definition python_print : list (jsstring * JsValue) :=
  body_of (js "python") (js "print(1+1)").

Definition python_options : CreateOptions :=
  {| Image := JStr (js "python:3.9-slim");
     Cmd := [JStr (js "python"); JStr (js "-c"); JStr (js "print(1+1)")];
     Tty := false;
     Host := {| CpuShares := 512; Memory := 268435456;
                NetworkMode := js "none" |} |}.

(** A [wait] that resolves with an object that has no [StatusCode]. *)
Definition no_status : Env := with_wait (WaitResolves []) quiet.

Definition timed_out : Env :=
  with_wait (WaitResolves [(js "StatusCode", JNull)]) quiet.

Definition boom : Thrown :=
  ErrorObject (JStr (js "connect ECONNREFUSED"))
              (js "Error: connect ECONNREFUSED at Socket.connect").

(** An attach whose callback receives an error. *)
Definition attach_refused : Env := with_attach (AttachCallbackError boom) quiet.

(** An error without a message. *)
Definition silent : Thrown := ErrorObject JUndefined (js "Error at dial").

Definition no_daemon : Env :=
  {| listImages_fault := Some silent; pull_fault := None;
     followProgress_fault := None; createContainer_fault := None;
     new_container_id := js "0123456789abcdef";
     attach_outcome := AttachCallbackStream; start_fault := None;
     data_during_start := [];
     wait_outcome := WaitResolves [(js "StatusCode", JNum 0)];
     data_during_wait := []; remove_fault := None |}.

Definition conflict : Thrown :=
  ErrorObject (JStr (js "(HTTP code 409) conflict"))
              (js "Error: (HTTP code 409) conflict at Modem.buildPayload").

(** A run that times out and whose container cannot be removed. *)
Definition stuck : Env := with_remove_fault (Some conflict) timed_out.

(** A language that is an array around the string python. *)
Definition array_python : list (jsstring * JsValue) :=
  [(js "language", JArr [JStr (js "python")]);
   (js "code", JStr (js "print(1)"))].

(** A container that prints white space only. *)
Definition blank_output : Env :=
  with_data [[32%N; 10%N]; [9%N]] quiet.

(** A runtime that already has an image and a container. *)
Definition busy : State :=
  {| images := [js "node:18-alpine"];
     containers := [mkContainer (js "ffff000011112222") python_options];
     calls := []; console := []; sent := [];
     container := None; output := []; piped := false |}.

(** A runtime that cannot pull. *)
Definition registry_down : Env :=
  {| listImages_fault := None; pull_fault := Some boom;
     followProgress_fault := None; createContainer_fault := None;
     new_container_id := js "0123456789abcdef";
     attach_outcome := AttachCallbackStream; start_fault := None;
     data_during_start := [];
     wait_outcome := WaitResolves [(js "StatusCode", JNum 0)];
     data_during_wait := []; remove_fault := None |}.

(** * Properties *)

(** ** The model at work *)

Example ToString_array :
  ToString (JArr [JStr (js "a"); JNull; JNum (-12); JArr [JBool true; JNum 0]])
  = Some (js "a,,-12,true,0").
Proof. reflexivity. Qed.

Example trim_example :
  trim (js "  2" ++ [10%N]) = js "2".
Proof. reflexivity. Qed.

Example run_print :
  let s := snd (execute (with_data [js "2" ++ [10%N]] quiet)
                        (body_of (js "python") (js "print(1+1)")) fresh) in
  sent s = [mkResponse 200 [(js "output", JStr (js "2"))]]
  /\ calls s = [ListImages (JStr (js "python:3.9-slim"));
                Pull (JStr (js "python:3.9-slim"));
                FollowProgress (JStr (js "python:3.9-slim"));
                CreateContainer
                  {| Image := JStr (js "python:3.9-slim");
                     Cmd := [JStr (js "python"); JStr (js "-c");
                             JStr (js "print(1+1)")];
                     Tty := false;
                     Host := {| CpuShares := 512; Memory := 268435456;
                                NetworkMode := js "none" |} |};
                Attach (js "0123456789abcdef");
                Start (js "0123456789abcdef");
                Wait (js "0123456789abcdef") 10000;
                Remove (js "0123456789abcdef")]
  /\ containers s = []
  /\ images s = [js "python:3.9-slim"].
Proof. vm_compute. repeat split. Qed.

Example ruby_rejected :
  execute quiet (body_of (js "ruby") (js "puts 1")) fresh
  = (Normal tt, add_sent unsupported_response fresh).
Proof. reflexivity. Qed.

(** An array is turned into a property key by joining its elements, so
    [["python"]] selects the python image; it is not [=== 'python'], so the
    command is the one of node. *)
Example array_language_runs_node :
  let req := [(js "language", JArr [JStr (js "python")]);
              (js "code", JStr (js "print(1)"))] in
  hd_error (filter is_create (trace (execute quiet req) fresh))
  = Some (CreateContainer
            {| Image := JStr (js "python:3.9-slim");
               Cmd := [JStr (js "node"); JStr (js "-e"); JStr (js "print(1)")];
               Tty := false;
               Host := {| CpuShares := 512; Memory := 268435456;
                          NetworkMode := js "none" |} |}).
Proof. reflexivity. Qed.

(** A language that has no string form makes the property read throw before
    the [try] block: the handler sends nothing. *)
Example unconvertible_language_throws :
  let req := [(js "language", JObj [(js "toString", JNum 1)]);
              (js "code", JStr (js "1"))] in
  execute quiet req fresh = (Throw not_primitive, fresh).
Proof. reflexivity. Qed.

(** What a run that times out writes to the console. *)
Example timed_out_console :
  console (snd (execute timed_out python_print fresh))
  = [LogAttempt (JStr (js "python")) (JStr (js "python:3.9-slim"));
     LogChecking (JStr (js "python:3.9-slim"));
     LogPulling (JStr (js "python:3.9-slim"));
     LogPulled (JStr (js "python:3.9-slim"));
     LogStarted (js "0123456789ab");
     LogExecutionError (NewError (js "Execution timed out."));
     LogRemoved (js "0123456789ab")].
Proof. reflexivity. Qed.

(** A second request for the same language finds the image and does not
    pull. *)
Example second_request_no_pull :
  let s1 := snd (execute quiet python_print fresh) in
  trace (execute quiet python_print) s1
  = [ListImages (JStr (js "python:3.9-slim"));
     CreateContainer python_options;
     Attach (js "0123456789abcdef");
     Start (js "0123456789abcdef");
     Wait (js "0123456789abcdef") 10000;
     Remove (js "0123456789abcdef")].
Proof. reflexivity. Qed.

(** ** Strings *)

Lemma str_eqb_eq (a b : jsstring) : str_eqb a b = true <-> a = b.
Proof.
  revert b. induction a as [|x a IH]; intros [|y b]; cbn; split;
    try congruence; try reflexivity.
  - intros H. apply andb_true_iff in H as [Hx Hab].
    apply N.eqb_eq in Hx. apply IH in Hab. congruence.
  - intros H. injection H as -> ->. rewrite N.eqb_refl.
    apply IH. reflexivity.
Qed.

Lemma trimStart_split (s : jsstring) :
  exists pre, s = pre ++ trimStart s /\ forallb is_space pre = true.
Proof.
  induction s as [|c s [pre [Heq Hpre]]].
  - exists []. split; reflexivity.
  - simpl trimStart. destruct (is_space c) eqn:Hc.
    + exists (c :: pre). split.
      * simpl. f_equal. exact Heq.
      * simpl. rewrite Hc. exact Hpre.
    + exists []. split; reflexivity.
Qed.

Lemma trimStart_head (s : jsstring) (c : N) (rest : jsstring) :
  trimStart s = c :: rest -> is_space c = false.
Proof.
  induction s as [|d s IH]; simpl.
  - discriminate.
  - destruct (is_space d) eqn:Hd.
    + exact IH.
    + intros H. injection H as -> _. exact Hd.
Qed.

(** [trim] removes a run of white space at each end and nothing else, and
    what is left neither starts nor ends with white space. *)
Lemma trim_spec (s : jsstring) :
  (exists pre post,
      s = pre ++ trim s ++ post
      /\ forallb is_space pre = true /\ forallb is_space post = true)
  /\ (forall c rest, trim s = c :: rest -> is_space c = false)
  /\ (forall c front, trim s = front ++ [c] -> is_space c = false).
Proof.
  unfold trim, trimEnd.
  destruct (trimStart_split s) as [pre [Hs Hpre]].
  destruct (trimStart_split (rev (trimStart s))) as [post [Hr Hpost]].
  assert (Hmid : trimStart s = rev (trimStart (rev (trimStart s))) ++ rev post).
  { rewrite <- rev_app_distr, <- Hr, rev_involutive. reflexivity. }
  split; [|split].
  - exists pre, (rev post). split; [|split].
    + rewrite <- Hmid. exact Hs.
    + exact Hpre.
    + rewrite forallb_forall in *. intros x Hx. apply Hpost.
      apply in_rev. exact Hx.
  - intros c rest H.
    destruct (trimStart s) as [|d t] eqn:Ht.
    + simpl in H. discriminate.
    + assert (Hd : is_space d = false) by (eapply trimStart_head; exact Ht).
      rewrite H in Hmid. simpl in Hmid. injection Hmid as -> _. exact Hd.
  - intros c front H.
    apply (f_equal (@rev N)) in H.
    rewrite rev_involutive, rev_app_distr in H. simpl in H.
    eapply trimStart_head. exact H.
Qed.

Lemma str_eqb_refl (a : jsstring) : str_eqb a a = true.
Proof. apply str_eqb_eq. reflexivity. Qed.

(** ** The effects of the pieces *)

Arguments js : simpl never.
Arguments get : simpl never.
Arguments trim : simpl never.
Arguments ToString : simpl never.
Arguments local_images : simpl never.
Arguments store_image : simpl never.
Arguments str_eqb : simpl never.
Arguments substring0 : simpl never.
Arguments js_or : simpl never.
Arguments deliver : simpl never.
Arguments Z.mul : simpl never.

Lemma fold_on_data (chunks : list jsstring) (s : State) :
  fold_left (fun s c => on_data c s) chunks s
  = set_output (output s ++ concat chunks) s.
Proof.
  revert s. induction chunks as [|c chunks IH]; intros s; simpl.
  - rewrite app_nil_r. destruct s; reflexivity.
  - rewrite IH. unfold on_data, set_output; simpl.
    rewrite <- app_assoc. reflexivity.
Qed.

Lemma deliver_eq (chunks : list jsstring) (s : State) :
  deliver chunks s
  = (Normal tt, if piped s then set_output (output s ++ concat chunks) s else s).
Proof. unfold deliver, modify. rewrite fold_on_data. reflexivity. Qed.

Lemma skipn_length_app {A} (l x : list A) : skipn (length l) (l ++ x) = x.
Proof. induction l; simpl; auto. Qed.

Lemma skipn_length_self {A} (l : list A) : skipn (length l) l = [].
Proof. induction l; simpl; auto. Qed.

Ltac unfold_run :=
  unfold guarded_run, try_finally, try_catch, try_block, catch_block,
    finally_block, pullImage, listImages, pull, followProgress,
    createContainer, attach, start, wait, remove, request, interpolate,
    console_log, console_error, res_json, bind, modify, gets, throw, ret.

Ltac split_on t := destruct t eqn:?; cbn in *.

Ltac run_step :=
  match goal with
  | |- context [match listImages_fault ?e with _ => _ end] =>
      split_on (listImages_fault e)
  | |- context [Z.of_nat (length (local_images ?i ?l))] =>
      split_on (local_images i l)
  | |- context [match pull_fault ?e with _ => _ end] =>
      split_on (pull_fault e)
  | |- context [match followProgress_fault ?e with _ => _ end] =>
      split_on (followProgress_fault e)
  | |- context [match createContainer_fault ?e with _ => _ end] =>
      split_on (createContainer_fault e)
  | |- context [match attach_outcome ?e with _ => _ end] =>
      split_on (attach_outcome e)
  | |- context [match start_fault ?e with _ => _ end] =>
      split_on (start_fault e)
  | |- context [match wait_outcome ?e with _ => _ end] =>
      split_on (wait_outcome e)
  | |- context [if is_null ?v then _ else _] => split_on (is_null v)
  | |- context [match ToString ?v with _ => _ end] => split_on (ToString v)
  | |- context [match remove_fault ?e with _ => _ end] =>
      split_on (remove_fault e)
  end.

Ltac clear_in :=
  repeat match goal with
         | H : _ \/ _ |- _ => destruct H as [H|H]
         | H : False |- _ => destruct H
         | H : In _ _ |- _ => cbn in H
         end; try discriminate.

(** ** Validation *)

Lemma execute_validated env body s :
  passes_validation body = true ->
  execute env body s
  = guarded_run env (get body (js "language")) (get body (js "code"))
                (image_of body) (cmd_of body) s.
Proof.
  unfold passes_validation, execute, image_of, cmd_of. intros H.
  apply andb_true_iff in H as [H Himg]. apply andb_true_iff in H as [Hl Hc].
  rewrite Hl, Hc. cbn.
  destruct (ToString (get body (js "language"))) as [key|]; [|discriminate].
  rewrite Himg. reflexivity.
Qed.

Lemma trace_execute_validated env body s :
  passes_validation body = true ->
  trace (execute env body) s
  = trace (guarded_run env (get body (js "language")) (get body (js "code"))
                       (image_of body) (cmd_of body)) s.
Proof.
  intros Hv. unfold trace. rewrite (execute_validated _ _ _ Hv). reflexivity.
Qed.

Lemma execute_not_validated env body s :
  passes_validation body = false ->
  trace (execute env body) s = [] /\
  containers (snd (execute env body s)) = containers s /\
  images (snd (execute env body s)) = images s.
Proof.
  unfold passes_validation, execute, trace. intros H.
  destruct (truthy (get body (js "language"))); cbn in *;
    [destruct (truthy (get body (js "code"))); cbn in *|].
  2,3: rewrite skipn_length_self; auto.
  destruct (ToString (get body (js "language"))) as [key|]; cbn.
  - rewrite H. cbn. rewrite skipn_length_self; auto.
  - rewrite skipn_length_self; auto.
Qed.

(** A property read on [languageImageMap] yields nothing, an image name or
    one of the built-in objects; each has a string form. *)
Lemma image_convertible (key : jsstring) :
  exists k, ToString (get languageImageMap key) = Some k.
Proof.
  unfold get, languageImageMap, Object_prototype. simpl own_property.
  repeat match goal with
         | |- context [if ?b then _ else _] => destruct b
         end; eexists; reflexivity.
Qed.

Lemma validated_convertible body :
  passes_validation body = true ->
  (exists k, ToString (get body (js "language")) = Some k)
  /\ (exists k, ToString (image_of body) = Some k).
Proof.
  unfold passes_validation, image_of. intros H.
  apply andb_true_iff in H as [_ H].
  destruct (ToString (get body (js "language"))) as [key|]; [|discriminate].
  split; [eexists; reflexivity | apply image_convertible].
Qed.

Lemma execute_rejected_any_env env env' body s :
  passes_validation body = false ->
  execute env body s = execute env' body s.
Proof.
  unfold passes_validation, execute. intros H.
  destruct (truthy (get body (js "language"))); cbn in *;
    [destruct (truthy (get body (js "code"))); cbn in *|]; try reflexivity.
  destruct (ToString (get body (js "language"))) as [key|]; cbn.
  - rewrite H. reflexivity.
  - reflexivity.
Qed.

(** ** How a run ends *)

Lemma first_failure_after_wait env local img waitResult :
  reaches_wait_result env local img waitResult ->
  first_failure env local img
  = if is_null (get waitResult (js "StatusCode"))
    then Some (NewError (js "Execution timed out."))
    else match ToString (get waitResult (js "StatusCode")) with
         | Some _ => None
         | None => Some not_primitive
         end.
Proof.
  intros ([Hl Hp] & Hc & Ha & Hs & Hw). unfold first_failure.
  rewrite Hl, Hc, Hs, Hw.
  destruct (local_images img local).
  - destruct Hp as [-> ->]; [reflexivity|].
    destruct (attach_outcome env) eqn:E; try reflexivity.
    exfalso. eapply Ha. reflexivity.
  - destruct (attach_outcome env) eqn:E; try reflexivity.
    exfalso. eapply Ha. reflexivity.
Qed.

Lemma filter_out_last (l : list Container) (c : Container) :
  incl (filter (fun c' => negb (str_eqb (id c') (id c))) (l ++ [c])) l.
Proof.
  rewrite filter_app. cbn. rewrite str_eqb_refl. cbn. rewrite app_nil_r.
  apply incl_filter.
Qed.

(** The [try]/[catch]/[finally] statement, run on a language and an image
    name that have a string form, as those of a request that passed
    validation do. *)
Section GuardedRun.

Variables (env : Env) (language code img : JsValue) (cmd : list JsValue).
Variables (s : State) (k1 k2 : jsstring).
Hypothesis Hlanguage : ToString language = Some k1.
Hypothesis Himg : ToString img = Some k2.

Let final : State := snd (guarded_run env language code img cmd s).
Let asked : list Call := trace (guarded_run env language code img cmd) s.

(** Symbolic execution of the statement, one case per way the runtime can
    behave. *)
Ltac run_guarded :=
  unfold_run; cbn; rewrite Hlanguage, Himg; cbn;
  repeat (rewrite ?deliver_eq; cbn; run_step).

Ltac tidy_trace :=
  rewrite <- ?app_assoc; rewrite ?skipn_length_app; cbn.

(** The handler answers exactly once: with the error of the first failure,
    or with the trimmed buffer. *)
Lemma guarded_run_response :
  fst (guarded_run env language code img cmd s) = Normal tt
  /\ sent final
     = sent s ++ [match first_failure env (images s) img with
                  | Some e => error_response e
                  | None => output_response (trim (buffered env))
                  end].
Proof.
  subst final. unfold first_failure, buffered, error_response, output_response.
  run_guarded.
  all: rewrite ?concat_app, ?app_nil_r; split; reflexivity.
Qed.

(** The error that is answered is also written to the console. *)
Lemma guarded_run_logs_failure (e : Thrown) :
  first_failure env (images s) img = Some e ->
  In (LogExecutionError e) (console final).
Proof.
  subst final. unfold first_failure. run_guarded.
  all: intros He; try discriminate; injection He as <-.
  all: rewrite ?in_app_iff; cbn; tauto.
Qed.

(** The options of the container that is asked for. *)
Lemma guarded_run_creates (opts : CreateOptions) :
  In (CreateContainer opts) asked ->
  opts = {| Image := img;
            Cmd := cmd;
            Tty := false;
            Host := {| CpuShares := 512;
                       Memory := 256 * 1024 * 1024;
                       NetworkMode := js "none" |} |}.
Proof.
  subst asked. unfold trace. run_guarded.
  all: tidy_trace.
  all: intros Hin; clear_in; congruence.
Qed.

(** When a container is created, the last request to the runtime is the
    removal of that container, and it is the only removal. *)
Lemma guarded_run_removes (opts : CreateOptions) :
  createContainer_fault env = None ->
  In (CreateContainer opts) asked ->
  exists before,
    asked = before ++ [Remove (new_container_id env)]
    /\ filter is_remove before = [].
Proof.
  intros Hc. subst asked. unfold trace. run_guarded.
  all: tidy_trace.
  all: intros Hin; try congruence; try (clear_in; fail).
  all: match goal with
       | |- exists before, ?t = _ /\ _ =>
           exists (removelast t); split; reflexivity
       end.
Qed.

(** A removal that fails ends up as the last line of the console. *)
Lemma guarded_run_remove_error (opts : CreateOptions) (e : Thrown) :
  createContainer_fault env = None ->
  In (CreateContainer opts) asked ->
  remove_fault env = Some e ->
  exists lines, console final = lines ++ [LogRemoveError e].
Proof.
  intros Hc. subst asked final. unfold trace. run_guarded.
  all: intros Hin Hr; try congruence.
  all: rewrite <- ?app_assoc in Hin; rewrite ?skipn_length_app in Hin.
  all: try (clear_in; fail).
  all: injection Hr as <-; eexists; reflexivity.
Qed.

(** At most one container is asked for, and unless its removal fails the
    container list ends up within what it was. *)
Lemma guarded_run_containers :
  (length (filter is_create asked) <= 1)%nat
  /\ (remove_fault env = None -> incl (containers final) (containers s)).
Proof.
  subst asked final. unfold trace. run_guarded.
  all: tidy_trace.
  all: split; [lia|]; intros Hr; try discriminate.
  all: try apply incl_refl.
  all: apply (filter_out_last (containers s)
                (mkContainer (new_container_id env) _)).
Qed.

(** Whatever the handler asks of the runtime before it creates a container
    is what [pullImage] asks, and [pullImage] has returned by then. *)
Lemma create_follows_pullImage (opts : CreateOptions) :
  In (CreateContainer opts) asked ->
  Image opts = img
  /\ fst (pullImage env img s) = Normal tt
  /\ exists after,
       asked = trace (pullImage env img) s ++ CreateContainer opts :: after.
Proof.
  subst asked. unfold trace. run_guarded.
  all: tidy_trace.
  all: intros Hin; clear_in.
  all: match goal with
       | H : CreateContainer _ = CreateContainer _ |- _ =>
           injection H as <-
       end.
  all: split; [reflexivity|]; split; [reflexivity|]; eexists; reflexivity.
Qed.

End GuardedRun.

Lemma execute_response env body s :
  passes_validation body = true ->
  fst (execute env body s) = Normal tt
  /\ sent (snd (execute env body s))
     = sent s ++ [match first_failure env (images s) (image_of body) with
                  | Some e => error_response e
                  | None => output_response (trim (buffered env))
                  end].
Proof.
  intros Hv. rewrite (execute_validated _ _ _ Hv).
  destruct (validated_convertible _ Hv) as [[k1 H1] [k2 H2]].
  eapply guarded_run_response; eassumption.
Qed.

(** ** Supported languages *)

Lemma supported_validated body :
  supported (get body (js "language")) ->
  truthy (get body (js "code")) = true ->
  passes_validation body = true.
Proof.
  unfold passes_validation. intros [H|H] Hc; rewrite H, Hc; reflexivity.
Qed.

(** C1: a request with a supported language whose run goes through (every
    request to the runtime succeeds and [wait] yields a status code that is
    not null) is answered 200 with a body whose [output] is the text taken
    from the container's stream up to then, trimmed: that text less a run of
    white space at each end. *)
Theorem execute_success_output env body s waitResult :
  supported (get body (js "language")) ->
  truthy (get body (js "code")) = true ->
  reaches_wait_result env (images s) (image_of body) waitResult ->
  is_null (get waitResult (js "StatusCode")) = false ->
  ToString (get waitResult (js "StatusCode")) <> None ->
  sent (snd (execute env body s))
  = sent s ++ [mkResponse 200 [(js "output", JStr (trim (buffered env)))]]
  /\ (exists pre post,
        buffered env = pre ++ trim (buffered env) ++ post
        /\ forallb is_space pre = true /\ forallb is_space post = true)
  /\ (forall c rest, trim (buffered env) = c :: rest -> is_space c = false)
  /\ (forall c front, trim (buffered env) = front ++ [c] -> is_space c = false).
Proof.
  intros Hl Hc Hr Hn Hp. split; [|apply trim_spec].
  destruct (execute_response env body s (supported_validated _ Hl Hc)) as [_ ->].
  rewrite (first_failure_after_wait _ _ _ _ Hr), Hn.
  destruct (ToString (get waitResult (js "StatusCode"))); [reflexivity|].
  contradiction.
Qed.

Lemma execute_success_output_witness :
  sent (snd (execute (with_data [js "2" ++ [10%N]] quiet) python_print fresh))
  = sent fresh
    ++ [mkResponse 200
          [(js "output",
            JStr (trim (buffered (with_data [js "2" ++ [10%N]] quiet))))]].
Proof.
  apply (execute_success_output (with_data [js "2" ++ [10%N]] quiet)
           python_print fresh [(js "StatusCode", JNum 0)]).
  - left. reflexivity.
  - reflexivity.
  - unfold reaches_wait_result, image_ready.
    repeat split; intros; discriminate.
  - reflexivity.
  - vm_compute. discriminate.
Defined.

(** ** The container that is created *)

(** C2: whenever the handler asks for a container, the options disable
    networking, cap the memory at 256MB and set the CPU share to 512, and the
    command runs the interpreter of the language on the code of the request:
    [python -c code] for python, [node -e code] for javascript. *)
Theorem container_options env body s opts :
  In (CreateContainer opts) (trace (execute env body) s) ->
  NetworkMode (Host opts) = js "none"
  /\ Memory (Host opts) = 256 * 1024 * 1024
  /\ Memory (Host opts) = 268435456
  /\ CpuShares (Host opts) = 512
  /\ Tty opts = false
  /\ Image opts = image_of body
  /\ Cmd opts = cmd_of body
  /\ (get body (js "language") = JStr (js "python") ->
      Image opts = JStr (js "python:3.9-slim")
      /\ Cmd opts = [JStr (js "python"); JStr (js "-c"); get body (js "code")])
  /\ (get body (js "language") = JStr (js "javascript") ->
      Image opts = JStr (js "node:18-alpine")
      /\ Cmd opts = [JStr (js "node"); JStr (js "-e"); get body (js "code")]).
Proof.
  intros Hin.
  assert (Hopts : opts = {| Image := image_of body; Cmd := cmd_of body;
                            Tty := false;
                            Host := {| CpuShares := 512;
                                       Memory := 256 * 1024 * 1024;
                                       NetworkMode := js "none" |} |}).
  { destruct (passes_validation body) eqn:Hv.
    - destruct (validated_convertible _ Hv) as [[k1 H1] [k2 H2]].
      rewrite (trace_execute_validated _ _ _ Hv) in Hin.
      exact (guarded_run_creates env _ _ _ _ s k1 k2 H1 H2 opts Hin).
    - destruct (execute_not_validated env body s Hv) as [Ht _].
      rewrite Ht in Hin. destruct Hin. }
  subst opts. cbn.
  repeat split; try reflexivity.
  - unfold image_of. rewrite H. reflexivity.
  - unfold cmd_of. rewrite H. reflexivity.
  - unfold image_of. rewrite H. reflexivity.
  - unfold cmd_of. rewrite H. reflexivity.
Qed.

Lemma container_options_witness :
  In (CreateContainer python_options) (trace (execute quiet python_print) fresh)
  /\ NetworkMode (Host python_options) = js "none"
  /\ Memory (Host python_options) = 268435456
  /\ CpuShares (Host python_options) = 512.
Proof.
  assert (Hin : In (CreateContainer python_options)
                   (trace (execute quiet python_print) fresh)).
  { vm_compute. right. right. right. left. reflexivity. }
  split; [exact Hin|].
  destruct (container_options quiet python_print fresh python_options Hin)
    as (Hn & _ & Hm & Hc & _).
  repeat split; assumption.
Defined.

(** ** Rejected requests *)

(** A falsy language or code ends the handler at its first [return]. *)
Lemma execute_falsy env body s :
  truthy (get body (js "language")) = false
  \/ truthy (get body (js "code")) = false ->
  execute env body s = (Normal tt, add_sent required_response s).
Proof.
  intros H. unfold execute.
  destruct H as [-> | ->]; rewrite ?orb_true_r; reflexivity.
Qed.

(** C9: a request whose language or code is falsy, whether absent or present
    (the empty string, zero, false, null), is answered 400 with the message
    "Language and code are required.", exactly as a request with an empty
    body is, and nothing is asked of the container runtime. *)
Theorem falsy_field_rejected env body s :
  truthy (get body (js "language")) = false
  \/ truthy (get body (js "code")) = false ->
  execute env body s = (Normal tt, add_sent required_response s)
  /\ execute env body s = execute env [] s
  /\ sent (snd (execute env body s)) = sent s ++ [required_response]
  /\ trace (execute env body) s = []
  /\ images (snd (execute env body s)) = images s
  /\ containers (snd (execute env body s)) = containers s.
Proof.
  intros H.
  assert (E := execute_falsy env body s H).
  unfold trace. rewrite E. cbn. rewrite skipn_length_self.
  repeat split; reflexivity.
Qed.

Lemma falsy_field_rejected_witness :
  truthy (get (body_of [] (js "print(1)")) (js "language")) = false
  /\ sent (snd (execute quiet (body_of [] (js "print(1)")) fresh))
     = sent fresh ++ [required_response]
  /\ trace (execute quiet (body_of [] (js "print(1)"))) fresh = [].
Proof.
  assert (H : truthy (get (body_of [] (js "print(1)")) (js "language")) = false)
    by reflexivity.
  split; [exact H|].
  destruct (falsy_field_rejected quiet (body_of [] (js "print(1)")) fresh
              (or_introl H)) as (_ & _ & Hs & Ht & _).
  split; assumption.
Defined.

(** A field that the body does not have reads as [undefined]. *)
Lemma absent_field_undefined body :
  (own_property body (js "language") = None ->
   get body (js "language") = JUndefined)
  /\ (own_property body (js "code") = None ->
      get body (js "code") = JUndefined).
Proof.
  unfold get. split; intros ->; reflexivity.
Qed.

(** A request without a language or without a code is answered 400. *)
Lemma missing_field_rejected env body s :
  own_property body (js "language") = None
  \/ own_property body (js "code") = None ->
  sent (snd (execute env body s)) = sent s ++ [required_response].
Proof.
  intros H. rewrite execute_falsy; [reflexivity|].
  destruct (absent_field_undefined body) as [Hl Hc].
  destruct H as [H|H]; [left; rewrite (Hl H) | right; rewrite (Hc H)];
    reflexivity.
Qed.

(** The check of the fields comes first: a request without code is told
    that language and code are required even when its language is not one
    the map knows. *)
Lemma required_before_unsupported env language s :
  sent (snd (execute env [(js "language", JStr language)] s))
  = sent s ++ [required_response].
Proof.
  rewrite execute_falsy; [reflexivity|]. right. reflexivity.
Qed.

(** A language that names no property of the map, own or inherited, is
    answered 400 "Unsupported language.", and the runtime is not asked
    anything. *)
Lemma unknown_language_rejected env body s language :
  get body (js "language") = JStr language ->
  truthy (get body (js "language")) = true ->
  truthy (get body (js "code")) = true ->
  get languageImageMap language = JUndefined ->
  execute env body s = (Normal tt, add_sent unsupported_response s).
Proof.
  intros Hl Ht Hc Hu. unfold execute. rewrite Ht, Hc, Hl. cbn.
  change (ToString (JStr language)) with (Some language). cbn.
  rewrite Hu. reflexivity.
Qed.

(** C3, on the request [{"language": "constructor", "code": "1"}]: the
    language is not python and not javascript, yet the request is not
    rejected.  [languageImageMap["constructor"]] is the inherited [Object]
    function, which is truthy, so the handler goes on to ask the runtime for
    the image and answers 200 or 500, never 400. *)
Theorem inherited_language_not_rejected env s :
  let req := body_of (js "constructor") (js "1") in
  ~ supported (get req (js "language"))
  /\ image_of req = JFunction (js "Object")
  /\ fst (execute env req s) = Normal tt
  /\ (exists r, sent (snd (execute env req s)) = sent s ++ [r]
                /\ (status r = 200 \/ status r = 500)
                /\ status r <> 400)
  /\ hd_error (trace (execute env req) s)
     = Some (ListImages (JFunction (js "Object"))).
Proof.
  intros req.
  assert (Hv : passes_validation req = true) by reflexivity.
  split; [|split; [|split; [|split]]].
  - intros [H|H]; vm_compute in H; discriminate.
  - reflexivity.
  - apply execute_response, Hv.
  - destruct (execute_response env req s Hv) as [_ ->].
    destruct (first_failure env (images s) (image_of req)).
    + eexists. split; [reflexivity|]. cbn. split; [right; reflexivity | lia].
    + eexists. split; [reflexivity|]. cbn. split; [left; reflexivity | lia].
  - unfold trace. rewrite (execute_validated _ _ _ Hv).
    change (image_of req) with (JFunction (js "Object")).
    change (get req (js "language")) with (JStr (js "constructor")).
    generalize (cmd_of req) (get req (js "code")). intros cmd code.
    unfold_run; cbn.
    change (ToString (JStr (js "constructor"))) with (Some (js "constructor")).
    cbn.
    change (ToString (JFunction (js "Object")))
      with (Some (js "function " ++ js "Object" ++ js "() { [native code] }")).
    cbn.
    repeat (rewrite ?deliver_eq; cbn; run_step).
    all: rewrite <- ?app_assoc; rewrite ?skipn_length_app; reflexivity.
Qed.

(** ** Timeouts *)

(** C4, as stated, fails when the status code is absent: [undefined] is not
    [=== null], so the run counts as finished and is answered 200. *)
Lemma absent_status_not_timeout :
  wait_outcome no_status = WaitResolves []
  /\ get [] (js "StatusCode") = JUndefined
  /\ sent (snd (execute no_status python_print fresh))
     = [mkResponse 200 [(js "output", JStr [])]]
  /\ sent (snd (execute no_status python_print fresh)) <> [timeout_response].
Proof.
  repeat split; try reflexivity. vm_compute. discriminate.
Qed.

(** C4, amended: when the run of a valid request gets as far as [wait] and
    the result of [wait] has a null status code, the handler takes it for a
    timeout: it answers 500 with the message "Execution timed out." and
    writes the error to the console. *)
Theorem null_status_is_timeout env body s waitResult :
  passes_validation body = true ->
  reaches_wait_result env (images s) (image_of body) waitResult ->
  get waitResult (js "StatusCode") = JNull ->
  sent (snd (execute env body s))
  = sent s ++ [mkResponse 500 [(js "error", JStr (js "Execution timed out."))]]
  /\ In (LogExecutionError (NewError (js "Execution timed out.")))
        (console (snd (execute env body s))).
Proof.
  intros Hv Hr Hn.
  assert (Hf : first_failure env (images s) (image_of body)
               = Some (NewError (js "Execution timed out."))).
  { rewrite (first_failure_after_wait _ _ _ _ Hr), Hn. reflexivity. }
  split.
  - destruct (execute_response env body s Hv) as [_ ->]. rewrite Hf.
    reflexivity.
  - rewrite (execute_validated _ _ _ Hv).
    destruct (validated_convertible _ Hv) as [[k1 H1] [k2 H2]].
    eapply guarded_run_logs_failure; eassumption.
Qed.

Lemma null_status_is_timeout_witness :
  get [(js "StatusCode", JNull)] (js "StatusCode") = JNull
  /\ sent (snd (execute timed_out python_print fresh))
     = sent fresh
       ++ [mkResponse 500 [(js "error", JStr (js "Execution timed out."))]].
Proof.
  split; [reflexivity|].
  apply (null_status_is_timeout timed_out python_print fresh
           [(js "StatusCode", JNull)]).
  - reflexivity.
  - unfold reaches_wait_result, image_ready.
    repeat split; intros; discriminate.
  - reflexivity.
Defined.

(** ** Failures *)

(** C5, as stated, fails for [attach]: an error the attach callback receives
    is written to the console and the run goes on; here it ends with a 200
    and an empty output. *)
Lemma attach_error_not_answered :
  attach_outcome attach_refused = AttachCallbackError boom
  /\ passes_validation python_print = true
  /\ sent (snd (execute attach_refused python_print fresh))
     = [mkResponse 200 [(js "output", JStr [])]]
  /\ In (LogAttachError boom)
        (console (snd (execute attach_refused python_print fresh)))
  /\ ~ In (LogExecutionError boom)
        (console (snd (execute attach_refused python_print fresh))).
Proof.
  repeat split; try reflexivity.
  - vm_compute. tauto.
  - vm_compute. intros H.
    repeat match goal with
           | H : _ \/ _ |- _ => destruct H as [H|H]
           end; try discriminate; assumption.
Qed.

(** C5, amended: when a valid request fails inside the [try] block, that is
    when listing or pulling the image, creating or starting the container or
    waiting for it fails, the attach call itself throws, or the wait yields a
    null status code, the handler answers 500 with a body whose single field
    [error] is the message of the error, or the fixed text when that message
    is falsy; the error object, with its stack, goes to the console only. *)
Theorem failure_response env body s e :
  passes_validation body = true ->
  first_failure env (images s) (image_of body) = Some e ->
  fst (execute env body s) = Normal tt
  /\ sent (snd (execute env body s))
     = sent s
       ++ [mkResponse 500
             [(js "error",
               if truthy (message_of e) then message_of e
               else JStr (js "An error occurred during execution."))]]
  /\ In (LogExecutionError e) (console (snd (execute env body s))).
Proof.
  intros Hv Hf.
  destruct (execute_response env body s Hv) as [Hn Hs].
  rewrite Hf in Hs. split; [exact Hn|]. split; [exact Hs|].
  rewrite (execute_validated _ _ _ Hv).
  destruct (validated_convertible _ Hv) as [[k1 H1] [k2 H2]].
  eapply guarded_run_logs_failure; eassumption.
Qed.

(** The stack of an error has no part in the response. *)
Lemma error_response_hides_stack message stack stack' :
  error_response (ErrorObject message stack)
  = error_response (ErrorObject message stack').
Proof. reflexivity. Qed.

(** The failures [first_failure] stands for, one lemma per operation. *)
Lemma failure_of_listImages env local img e :
  listImages_fault env = Some e -> first_failure env local img = Some e.
Proof. unfold first_failure. intros ->. reflexivity. Qed.

Lemma failure_of_pull env local img e :
  listImages_fault env = None -> local_images img local = [] ->
  pull_fault env = Some e -> first_failure env local img = Some e.
Proof. unfold first_failure. intros -> -> ->. reflexivity. Qed.

Lemma failure_of_followProgress env local img e :
  listImages_fault env = None -> local_images img local = [] ->
  pull_fault env = None -> followProgress_fault env = Some e ->
  first_failure env local img = Some e.
Proof. unfold first_failure. intros -> -> -> ->. reflexivity. Qed.

Lemma image_ready_no_failure env local img :
  image_ready env local img ->
  match local_images img local with
  | [] => match pull_fault env with
          | Some e => Some e
          | None => followProgress_fault env
          end
  | _ :: _ => None
  end = None.
Proof.
  intros [_ Hp]. destruct (local_images img local); [|reflexivity].
  destruct Hp as [-> ->]; reflexivity.
Qed.

Lemma failure_of_createContainer env local img e :
  image_ready env local img ->
  createContainer_fault env = Some e -> first_failure env local img = Some e.
Proof.
  intros Hr Hc. unfold first_failure.
  rewrite (image_ready_no_failure _ _ _ Hr), (proj1 Hr), Hc. reflexivity.
Qed.

Lemma failure_of_attach env local img e :
  image_ready env local img -> createContainer_fault env = None ->
  attach_outcome env = AttachThrows e -> first_failure env local img = Some e.
Proof.
  intros Hr Hc Ha. unfold first_failure.
  rewrite (image_ready_no_failure _ _ _ Hr), (proj1 Hr), Hc, Ha. reflexivity.
Qed.

Lemma failure_of_start env local img e :
  image_ready env local img -> createContainer_fault env = None ->
  (forall e', attach_outcome env <> AttachThrows e') ->
  start_fault env = Some e -> first_failure env local img = Some e.
Proof.
  intros Hr Hc Ha Hs. unfold first_failure.
  rewrite (image_ready_no_failure _ _ _ Hr), (proj1 Hr), Hc, Hs.
  destruct (attach_outcome env) eqn:E; try reflexivity.
  exfalso. eapply Ha. reflexivity.
Qed.

Lemma failure_of_wait env local img e :
  image_ready env local img -> createContainer_fault env = None ->
  (forall e', attach_outcome env <> AttachThrows e') ->
  start_fault env = None -> wait_outcome env = WaitRejects e ->
  first_failure env local img = Some e.
Proof.
  intros Hr Hc Ha Hs Hw. unfold first_failure.
  rewrite (image_ready_no_failure _ _ _ Hr), (proj1 Hr), Hc, Hs, Hw.
  destruct (attach_outcome env) eqn:E; try reflexivity.
  exfalso. eapply Ha. reflexivity.
Qed.

Lemma failure_response_witness :
  first_failure no_daemon (images fresh) (image_of python_print) = Some silent
  /\ sent (snd (execute no_daemon python_print fresh))
     = sent fresh
       ++ [mkResponse 500
             [(js "error", JStr (js "An error occurred during execution."))]].
Proof.
  split; [reflexivity|].
  apply (failure_response no_daemon python_print fresh silent).
  - reflexivity.
  - reflexivity.
Defined.

(** ** Cleanup *)

(** C6: when a container has been created, its removal is requested at the
    end of the request, once, whatever happened in between; whether that
    removal fails makes no difference to the response, and its failure is
    written to the console and nowhere else. *)
Theorem removal_attempted env body s opts :
  In (CreateContainer opts) (trace (execute env body) s) ->
  createContainer_fault env = None ->
  (exists before,
      trace (execute env body) s = before ++ [Remove (new_container_id env)]
      /\ filter is_remove before = [])
  /\ (forall f,
        sent (snd (execute (with_remove_fault f env) body s))
        = sent (snd (execute env body s)))
  /\ (forall e, remove_fault env = Some e ->
        fst (execute env body s) = Normal tt
        /\ exists lines,
             console (snd (execute env body s)) = lines ++ [LogRemoveError e]).
Proof.
  intros Hin Hc.
  destruct (passes_validation body) eqn:Hv.
  2: { destruct (execute_not_validated env body s Hv) as [Ht _].
       rewrite Ht in Hin. destruct Hin. }
  destruct (validated_convertible _ Hv) as [[k1 H1] [k2 H2]].
  split; [|split].
  - revert Hin. unfold trace. rewrite (execute_validated _ _ _ Hv).
    apply (guarded_run_removes env _ _ _ _ s k1 k2 H1 H2 opts Hc).
  - intros f.
    destruct (execute_response (with_remove_fault f env) body s Hv) as [_ ->].
    destruct (execute_response env body s Hv) as [_ ->].
    reflexivity.
  - intros e He. split; [apply execute_response, Hv|].
    revert Hin. unfold trace. rewrite (execute_validated _ _ _ Hv).
    intros Hin.
    apply (guarded_run_remove_error env _ _ _ _ s k1 k2 H1 H2 opts e Hc Hin He).
Qed.

Lemma removal_attempted_witness :
  In (CreateContainer python_options) (trace (execute stuck python_print) fresh)
  /\ sent (snd (execute stuck python_print fresh))
     = sent (snd (execute timed_out python_print fresh))
  /\ exists before,
       trace (execute stuck python_print) fresh
       = before ++ [Remove (new_container_id stuck)]
       /\ filter is_remove before = [].
Proof.
  assert (Hin : In (CreateContainer python_options)
                   (trace (execute stuck python_print) fresh)).
  { vm_compute. right. right. right. left. reflexivity. }
  destruct (removal_attempted stuck python_print fresh python_options Hin
              eq_refl) as (Hlast & Hsent & _).
  split; [exact Hin|]. split; [|exact Hlast].
  symmetry. exact (Hsent None).
Defined.

(** ** One container per request *)

(** C7, as stated, fails when the removal fails: the container the request
    created is still in the runtime's container list when the request is
    over. *)
Lemma container_outlives_request :
  remove_fault stuck = Some conflict
  /\ trace (execute stuck python_print) fresh
     = [ListImages (JStr (js "python:3.9-slim"));
        Pull (JStr (js "python:3.9-slim"));
        FollowProgress (JStr (js "python:3.9-slim"));
        CreateContainer python_options;
        Attach (js "0123456789abcdef");
        Start (js "0123456789abcdef");
        Wait (js "0123456789abcdef") 10000;
        Remove (js "0123456789abcdef")]
  /\ containers fresh = []
  /\ containers (snd (execute stuck python_print fresh))
     = [mkContainer (js "0123456789abcdef") python_options].
Proof. repeat split; reflexivity. Qed.

(** C7, amended: a request asks for at most one container; when it asked for
    one, it also asks for its removal; and unless that removal fails, the
    containers in the runtime's list once the request is over were all there
    before it. *)
Theorem at_most_one_container env body s :
  (length (filter is_create (trace (execute env body) s)) <= 1)%nat
  /\ (forall opts,
        In (CreateContainer opts) (trace (execute env body) s) ->
        createContainer_fault env = None ->
        In (Remove (new_container_id env)) (trace (execute env body) s))
  /\ (remove_fault env = None ->
      incl (containers (snd (execute env body s))) (containers s)).
Proof.
  destruct (passes_validation body) eqn:Hv.
  - destruct (validated_convertible _ Hv) as [[k1 H1] [k2 H2]].
    destruct (guarded_run_containers env (get body (js "language"))
                (get body (js "code")) (image_of body) (cmd_of body) s k1 k2
                H1 H2) as [Hone Hincl].
    unfold trace in *. rewrite (execute_validated _ _ _ Hv).
    split; [exact Hone|]. split; [|exact Hincl].
    intros opts Hin Hc.
    destruct (guarded_run_removes env _ _ _ _ s k1 k2 H1 H2 opts Hc Hin)
      as [before [Heq _]].
    unfold trace in Heq. rewrite Heq. apply in_or_app. right. left. reflexivity.
  - destruct (execute_not_validated env body s Hv) as (Ht & Hc & _).
    rewrite Ht, Hc. cbn. split; [lia|]. split.
    + intros opts [].
    + intros _. apply incl_refl.
Qed.

Lemma at_most_one_container_witness :
  remove_fault timed_out = None
  /\ (length (filter is_create (trace (execute timed_out python_print) fresh))
      <= 1)%nat
  /\ incl (containers (snd (execute timed_out python_print fresh)))
          (containers fresh).
Proof.
  destruct (at_most_one_container timed_out python_print fresh)
    as (Hone & _ & Hincl).
  split; [reflexivity|]. split; [exact Hone|].
  apply Hincl. reflexivity.
Defined.

(** ** The image *)

Lemma pullImage_trace env img s k :
  ToString img = Some k ->
  (In (Pull img) (trace (pullImage env img) s)
   <-> listImages_fault env = None /\ local_images img (images s) = [])
  /\ (In (Pull img) (trace (pullImage env img) s) ->
      fst (pullImage env img s) = Normal tt ->
      followProgress_fault env = None
      /\ trace (pullImage env img) s
         = [ListImages img; Pull img; FollowProgress img])
  /\ (~ In (Pull img) (trace (pullImage env img) s) ->
      fst (pullImage env img s) = Normal tt ->
      trace (pullImage env img) s = [ListImages img]
      /\ images (snd (pullImage env img s)) = images s)
  /\ (fst (pullImage env img s) = Normal tt ->
      forall ref, img = JStr ref -> In ref (images (snd (pullImage env img s)))).
Proof.
  intros H. unfold trace.
  unfold_run; cbn. rewrite H; cbn.
  repeat (rewrite ?deliver_eq; cbn; run_step).
  all: rewrite <- ?app_assoc; rewrite ?skipn_length_app; cbn.
  all: repeat split; try (intros; clear_in; fail); try tauto; try discriminate.
  all: try (intros [? ?]; discriminate).
  all: try (intros Hnot; exfalso; apply Hnot; tauto).
  - intros _ ref ->. unfold store_image. left. reflexivity.
  - intros _ ref ->.
    assert (Hin : In j (local_images (JStr ref) (images s)))
      by (rewrite Heql; left; reflexivity).
    unfold local_images in Hin. apply filter_In in Hin as [Hin Heq].
    apply str_eqb_eq in Heq. subst j. exact Hin.
Qed.

(** C8: [pullImage] asks the runtime for the local images that match the
    reference and pulls exactly when that list comes back empty; a pull is
    followed to its completion before [pullImage] returns; when it returns
    the image is in the local store; and the handler creates a container
    only after [pullImage] has returned. *)
Theorem pullImage_ensures_image env img s k :
  ToString img = Some k ->
  (In (Pull img) (trace (pullImage env img) s)
   <-> listImages_fault env = None /\ local_images img (images s) = [])
  /\ (In (Pull img) (trace (pullImage env img) s) ->
      fst (pullImage env img s) = Normal tt ->
      followProgress_fault env = None
      /\ trace (pullImage env img) s
         = [ListImages img; Pull img; FollowProgress img])
  /\ (~ In (Pull img) (trace (pullImage env img) s) ->
      fst (pullImage env img s) = Normal tt ->
      trace (pullImage env img) s = [ListImages img]
      /\ images (snd (pullImage env img s)) = images s)
  /\ (fst (pullImage env img s) = Normal tt ->
      forall ref, img = JStr ref -> In ref (images (snd (pullImage env img s))))
  /\ (forall body s0 opts,
        In (CreateContainer opts) (trace (execute env body) s0) ->
        fst (pullImage env (Image opts) s0) = Normal tt
        /\ exists after,
             trace (execute env body) s0
             = trace (pullImage env (Image opts)) s0
               ++ CreateContainer opts :: after).
Proof.
  intros H.
  destruct (pullImage_trace env img s k H) as (Hiff & Hpull & Hnot & Hin).
  split; [exact Hiff|]. split; [exact Hpull|]. split; [exact Hnot|].
  split; [exact Hin|].
  intros body s0 opts Hc.
  destruct (passes_validation body) eqn:Hv.
  - destruct (validated_convertible _ Hv) as [[k1 H1] [k2 H2]].
    assert (Ht : trace (execute env body) s0
                 = trace (guarded_run env (get body (js "language"))
                            (get body (js "code")) (image_of body)
                            (cmd_of body)) s0).
    { unfold trace. rewrite (execute_validated _ _ _ Hv). reflexivity. }
    rewrite Ht in *.
    destruct (create_follows_pullImage env _ _ _ _ s0 k1 k2 H1 H2 opts Hc)
      as (Himg & Hret & after & Hafter).
    rewrite Himg. split; [exact Hret|]. exists after. exact Hafter.
  - destruct (execute_not_validated env body s0 Hv) as [Ht _].
    rewrite Ht in Hc. destruct Hc.
Qed.

Lemma pullImage_ensures_image_witness :
  ToString (JStr (js "python:3.9-slim")) = Some (js "python:3.9-slim")
  /\ (In (Pull (JStr (js "python:3.9-slim")))
         (trace (pullImage quiet (JStr (js "python:3.9-slim"))) fresh)
      <-> listImages_fault quiet = None
          /\ local_images (JStr (js "python:3.9-slim")) (images fresh) = [])
  /\ In (js "python:3.9-slim")
        (images (snd (pullImage quiet (JStr (js "python:3.9-slim")) fresh))).
Proof.
  destruct (pullImage_ensures_image quiet (JStr (js "python:3.9-slim")) fresh
              (js "python:3.9-slim") eq_refl) as (Hiff & _ & _ & Hin & _).
  split; [reflexivity|]. split; [exact Hiff|].
  apply Hin; reflexivity.
Defined.

(** ** The variables of an invocation *)

(** What a request does is the same whatever an earlier invocation left in
    [container], [output] and the stream wiring: the handler sets each of
    them before it reads it. *)
Lemma execute_ignores_old_locals env body s c o p :
  let s0 := set_container c (set_output o (set_piped p s)) in
  fst (execute env body s0) = fst (execute env body s)
  /\ sent (snd (execute env body s0)) = sent (snd (execute env body s))
  /\ calls (snd (execute env body s0)) = calls (snd (execute env body s))
  /\ containers (snd (execute env body s0))
     = containers (snd (execute env body s)).
Proof.
  intros s0. subst s0.
  destruct (passes_validation body) eqn:Hv.
  - rewrite !(execute_validated _ _ _ Hv).
    destruct (validated_convertible _ Hv) as [[k1 H1] [k2 H2]].
    generalize (image_of body) (cmd_of body) H2. intros img cmd H2'.
    unfold_run; cbn. rewrite H1, H2'; cbn.
    repeat (rewrite ?deliver_eq; cbn; run_step).
    all: repeat split; reflexivity.
  - unfold passes_validation in Hv. unfold execute.
    destruct (truthy (get body (js "language"))); cbn in *;
      [destruct (truthy (get body (js "code"))); cbn in *|];
      try (repeat split; reflexivity).
    destruct (ToString (get body (js "language"))) as [key|]; cbn.
    + rewrite Hv. cbn. repeat split; reflexivity.
    + repeat split; reflexivity.
Qed.


(** * Further properties of the handler *)

(** ** The requests of a run *)

Lemma filter_fresh (l : list Container) (i : jsstring) :
  (forall c, In c l -> id c <> i) ->
  filter (fun c' => negb (str_eqb (id c') i)) l = l.
Proof.
  induction l as [|c l IH]; intros Hf; cbn; [reflexivity|].
  destruct (str_eqb (id c) i) eqn:E.
  - apply str_eqb_eq in E. exfalso. apply (Hf c); [left; reflexivity|exact E].
  - cbn. f_equal. apply IH. intros c' Hc'. apply Hf. right. exact Hc'.
Qed.

Section RunShape.

Variables (env : Env) (language code img : JsValue) (cmd : list JsValue).
Variables (s : State) (k1 k2 : jsstring).
Hypothesis Hlanguage : ToString language = Some k1.
Hypothesis Himg : ToString img = Some k2.

Let final : State := snd (guarded_run env language code img cmd s).
Let asked : list Call := trace (guarded_run env language code img cmd) s.

Ltac run_guarded :=
  unfold_run; cbn; rewrite Hlanguage, Himg; cbn;
  repeat (rewrite ?deliver_eq; cbn; run_step).

Ltac tidy_trace :=
  rewrite <- ?app_assoc; rewrite ?skipn_length_app; cbn.



(** The first request of a run is the listing of the image. *)
Lemma guarded_run_first_request :
  hd_error asked = Some (ListImages img).
Proof.
  subst asked. unfold trace. run_guarded.
  all: tidy_trace; reflexivity.
Qed.

(** A removal is only asked for the container that was created. *)
Lemma guarded_run_remove_only_created (i : jsstring) :
  In (Remove i) asked ->
  i = new_container_id env
  /\ createContainer_fault env = None
  /\ In (CreateContainer (create_options img cmd)) asked.
Proof.
  subst asked. unfold trace, create_options. run_guarded.
  all: tidy_trace.
  all: intros Hin; clear_in.
  all: match goal with
       | H : Remove _ = Remove _ |- _ => injection H as <-
       end.
  all: repeat split; tauto.
Qed.

(** A run without a failure asks for everything, in order, and then for the
    removal. *)
Lemma guarded_run_complete :
  first_failure env (images s) img = None ->
  asked = plan env (images s) img cmd ++ [Remove (new_container_id env)].
Proof.
  subst asked. unfold trace, plan, create_options, first_failure. run_guarded.
  all: tidy_trace.
  all: intros Hf; try discriminate; reflexivity.
Qed.

(** The local images are kept, and only the image of the run can be added. *)
Lemma guarded_run_images :
  incl (images s) (images final)
  /\ (forall r, In r (images final) -> In r (images s) \/ img = JStr r).
Proof.
  subst final. unfold store_image. run_guarded.
  all: split; [|intros r Hr].
  all: try apply incl_refl; try (left; exact Hr).
  all: destruct img; cbn in *; try apply incl_refl; try (left; exact Hr).
  all: try (apply incl_tl, incl_refl).
  all: destruct Hr as [<- | Hr]; [right; reflexivity | left; exact Hr].
Qed.

(** Once a container has been asked for, the image of the run is local. *)
Lemma guarded_run_image_local (opts : CreateOptions) (r : jsstring) :
  In (CreateContainer opts) asked -> img = JStr r -> In r (images final).
Proof.
  subst asked final. unfold trace. run_guarded.
  all: tidy_trace.
  all: intros Hin ->; clear_in.
  all: try (unfold store_image; left; reflexivity).
  all: match goal with
       | H : local_images (JStr ?r') ?l = ?j :: _ |- _ =>
           assert (Hj : In j (local_images (JStr r') l))
             by (rewrite H; left; reflexivity);
           unfold local_images in Hj; apply filter_In in Hj as [Hj Heq];
           apply str_eqb_eq in Heq; subst j
       end.
  all: try exact Hj.
Qed.

(** An image that is local is not pulled. *)
Lemma guarded_run_no_pull (r : jsstring) :
  img = JStr r -> In r (images s) -> ~ In (Pull img) asked.
Proof.
  intros -> Hr.
  assert (Hl : local_images (JStr r) (images s) <> []).
  { unfold local_images. intros Hnil.
    assert (Hin : In r (filter (str_eqb r) (images s)))
      by (apply filter_In; split; [exact Hr | apply str_eqb_refl]).
    rewrite Hnil in Hin. destruct Hin. }
  revert Hl. subst asked. unfold trace. run_guarded.
  all: tidy_trace.
  all: intros Hl Hin; try (apply Hl; reflexivity); clear_in.
Qed.

(** When the identifier of the new container is not in use, the containers
    that were there are all still there, and the only one that can have been
    added is the new one, left behind by a removal that failed. *)
Lemma guarded_run_containers_frame :
  (forall c, In c (containers s) -> id c <> new_container_id env) ->
  containers final = containers s
  \/ (containers final
      = containers s
        ++ [mkContainer (new_container_id env) (create_options img cmd)]
      /\ remove_fault env <> None
      /\ In (CreateContainer (create_options img cmd)) asked).
Proof.
  intros Hfresh. subst final asked. unfold trace, create_options. run_guarded.
  all: tidy_trace.
  all: rewrite ?filter_app, ?(filter_fresh _ _ Hfresh); cbn;
       rewrite ?str_eqb_refl; cbn; rewrite ?app_nil_r.
  all: try (left; reflexivity).
  all: right; split; [reflexivity|]; split; [congruence|]; tauto.
Qed.

End RunShape.

(** ** One answer *)

Lemma execute_unconvertible env body s :
  unconvertible body = true -> execute env body s = (Throw not_primitive, s).
Proof.
  unfold unconvertible, execute. intros H.
  apply andb_true_iff in H as [H Hk]. apply andb_true_iff in H as [Hl Hc].
  rewrite Hl, Hc. cbn.
  destruct (ToString (get body (js "language"))); [discriminate|reflexivity].
Qed.

Lemma execute_rejected env body s :
  passes_validation body = false -> unconvertible body = false ->
  execute env body s = (Normal tt, add_sent required_response s)
  \/ execute env body s = (Normal tt, add_sent unsupported_response s).
Proof.
  unfold passes_validation, unconvertible, execute.
  destruct (truthy (get body (js "language"))); cbn;
    [destruct (truthy (get body (js "code"))); cbn|]; try (left; reflexivity).
  destruct (ToString (get body (js "language"))) as [key|]; cbn;
    [|discriminate].
  intros -> _. right. reflexivity.
Qed.


(** X2: the runtime is asked something exactly when the request passes
    validation, and the first thing it is asked is to list the images that
    match the image of the language. *)
Theorem runtime_asked_iff_valid env body s :
  (trace (execute env body) s <> [] <-> passes_validation body = true)
  /\ (passes_validation body = true ->
      hd_error (trace (execute env body) s)
      = Some (ListImages (image_of body))).
Proof.
  assert (Hhd : passes_validation body = true ->
                hd_error (trace (execute env body) s)
                = Some (ListImages (image_of body))).
  { intros Hv. destruct (validated_convertible _ Hv) as [[k1 H1] [k2 H2]].
    rewrite (trace_execute_validated _ _ _ Hv).
    exact (guarded_run_first_request env _ _ _ _ s k1 k2 H1 H2). }
  split; [|exact Hhd]. split.
  - intros Hne. destruct (passes_validation body) eqn:Hv; [reflexivity|].
    destruct (execute_not_validated env body s Hv) as [Ht _]. contradiction.
  - intros Hv Hnil. specialize (Hhd Hv). rewrite Hnil in Hhd. discriminate.
Qed.

Lemma runtime_asked_iff_valid_witness :
  passes_validation python_print = true
  /\ hd_error (trace (execute no_daemon python_print) fresh)
     = Some (ListImages (image_of python_print)).
Proof.
  split; [reflexivity|].
  apply (runtime_asked_iff_valid no_daemon python_print fresh). reflexivity.
Defined.



(** X4: a removal is asked only for the container the request created: the
    identifier is the one the runtime gave, and the creation was asked for
    and did not fail. *)
Theorem remove_only_created env body s i :
  In (Remove i) (trace (execute env body) s) ->
  i = new_container_id env
  /\ createContainer_fault env = None
  /\ In (CreateContainer (create_options (image_of body) (cmd_of body)))
        (trace (execute env body) s).
Proof.
  intros Hin. destruct (passes_validation body) eqn:Hv.
  - destruct (validated_convertible _ Hv) as [[k1 H1] [k2 H2]].
    rewrite (trace_execute_validated _ _ _ Hv) in *.
    exact (guarded_run_remove_only_created env _ _ _ _ s k1 k2 H1 H2 i Hin).
  - destruct (execute_not_validated env body s Hv) as [Ht _].
    rewrite Ht in Hin. destruct Hin.
Qed.

Lemma remove_only_created_witness :
  In (Remove (js "0123456789abcdef")) (trace (execute quiet python_print) fresh)
  /\ createContainer_fault quiet = None
  /\ In (CreateContainer (create_options (image_of python_print)
                                         (cmd_of python_print)))
        (trace (execute quiet python_print) fresh).
Proof.
  assert (Hin : In (Remove (js "0123456789abcdef"))
                   (trace (execute quiet python_print) fresh)).
  { vm_compute. do 7 right. left. reflexivity. }
  split; [exact Hin|].
  apply (remove_only_created quiet python_print fresh _ Hin).
Defined.

(** X5: a 200 is sent only at the end of a complete run: the image was
    listed (and pulled if need be), the container created, attached to,
    started and waited for, in that order, and its removal asked for. *)
Theorem ok_means_complete env body s r :
  sent (snd (execute env body s)) = sent s ++ [r] ->
  status r = 200 ->
  passes_validation body = true
  /\ trace (execute env body) s
     = plan_of env body s ++ [Remove (new_container_id env)].
Proof.
  intros Hs Hr.
  assert (Hv : passes_validation body = true).
  { destruct (passes_validation body) eqn:Hv; [reflexivity|].
    destruct (unconvertible body) eqn:Hu.
    - rewrite (execute_unconvertible env body s Hu) in Hs. cbn in Hs.
      apply (f_equal (@length Response)) in Hs.
      rewrite length_app in Hs. cbn in Hs. lia.
    - destruct (execute_rejected env body s Hv Hu) as [E|E];
        rewrite E in Hs; cbn in Hs; apply app_inv_head in Hs;
        injection Hs as <-; discriminate. }
  split; [exact Hv|].
  destruct (execute_response env body s Hv) as [_ Hs'].
  rewrite Hs in Hs'. apply app_inv_head in Hs'. injection Hs' as ->.
  destruct (first_failure env (images s) (image_of body)) eqn:Hf;
    [discriminate|].
  destruct (validated_convertible _ Hv) as [[k1 H1] [k2 H2]].
  rewrite (trace_execute_validated _ _ _ Hv).
  exact (guarded_run_complete env _ _ _ _ s k1 k2 H1 H2 Hf).
Qed.

Lemma ok_means_complete_witness :
  status (mkResponse 200 [(js "output", JStr [])]) = 200
  /\ trace (execute quiet python_print) fresh
     = plan_of quiet python_print fresh ++ [Remove (new_container_id quiet)].
Proof.
  split; [reflexivity|].
  apply (ok_means_complete quiet python_print fresh
           (mkResponse 200 [(js "output", JStr [])])); reflexivity.
Defined.

(** ** Which languages get through *)

Lemma own_property_in props k v :
  own_property props k = Some v -> In (k, v) props.
Proof.
  induction props as [|[k' v'] props IH]; cbn; [discriminate|].
  destruct (own_property props k) as [w|].
  - intros H. injection H as ->. right. apply IH. reflexivity.
  - destruct (str_eqb k' k) eqn:E; [|discriminate].
    intros H. injection H as ->. apply str_eqb_eq in E. subst k'.
    left. reflexivity.
Qed.

Lemma own_property_some props k :
  In k (map fst props) -> exists v, own_property props k = Some v.
Proof.
  induction props as [|[k' v'] props IH]; cbn; [intros []|].
  intros [-> | Hin].
  - destruct (own_property props k) as [w|]; [eexists; reflexivity|].
    rewrite str_eqb_refl. eexists; reflexivity.
  - destruct (IH Hin) as [v ->]. eexists; reflexivity.
Qed.

Lemma table_values_truthy props k v :
  forallb (fun p => truthy (snd p)) props = true ->
  own_property props k = Some v -> truthy v = true.
Proof.
  intros Hall Hown. apply own_property_in in Hown.
  rewrite forallb_forall in Hall. exact (Hall _ Hown).
Qed.

(** A key selects a truthy [imageName] exactly when it names a property of
    the map, its own or one it inherits. *)
Lemma image_truthy_iff (key : jsstring) :
  truthy (get languageImageMap key) = true <-> In key accepted_languages.
Proof.
  unfold accepted_languages, get. rewrite in_app_iff. split.
  - destruct (own_property languageImageMap key) as [v|] eqn:E1.
    + intros _. left. apply own_property_in in E1.
      apply (in_map fst) in E1. exact E1.
    + destruct (own_property Object_prototype key) as [v|] eqn:E2.
      * intros _. right. apply own_property_in in E2.
        apply (in_map fst) in E2. exact E2.
      * discriminate.
  - intros [H|H].
    + destruct (own_property_some _ _ H) as [v Hv]. rewrite Hv.
      eapply table_values_truthy; [|exact Hv]. reflexivity.
    + destruct (own_property languageImageMap key) as [v|] eqn:E1.
      * eapply table_values_truthy; [|exact E1]. reflexivity.
      * destruct (own_property_some _ _ H) as [v Hv]. rewrite Hv.
        eapply table_values_truthy; [|exact Hv]. reflexivity.
Qed.

(** X6: for a language that is a string and a code that is truthy, the
    request passes validation exactly when the string names a property of
    [languageImageMap], own (python, javascript) or inherited from
    [Object.prototype]; any other non-empty string is answered 400
    "Unsupported language." and the runtime is not asked anything. *)
Theorem string_language_accepted env body s language :
  get body (js "language") = JStr language ->
  truthy (get body (js "code")) = true ->
  (passes_validation body = true <-> In language accepted_languages)
  /\ (language <> [] -> ~ In language accepted_languages ->
      execute env body s = (Normal tt, add_sent unsupported_response s)).
Proof.
  intros Hl Hc.
  assert (Hiff : passes_validation body = true <-> In language accepted_languages).
  { unfold passes_validation. rewrite Hl, Hc.
    change (ToString (JStr language)) with (Some language).
    rewrite <- image_truthy_iff. destruct language as [|c l]; cbn.
    - split; [discriminate|]. intros H. exact H.
    - tauto. }
  split; [exact Hiff|].
  intros Hne Hnot.
  assert (Hu : get languageImageMap language = JUndefined).
  { destruct (truthy (get languageImageMap language)) eqn:Ht.
    - exfalso. apply Hnot, image_truthy_iff, Ht.
    - revert Ht. unfold get.
      destruct (own_property languageImageMap language) as [v|] eqn:E1.
      + intros Ht. rewrite (table_values_truthy languageImageMap _ _ eq_refl E1) in Ht.
        discriminate.
      + destruct (own_property Object_prototype language) as [v|] eqn:E2;
          [|reflexivity].
        intros Ht. rewrite (table_values_truthy Object_prototype _ _ eq_refl E2) in Ht.
        discriminate. }
  apply (unknown_language_rejected env body s language Hl); try assumption.
  rewrite Hl. destruct language; [contradiction|reflexivity].
Qed.

Lemma string_language_accepted_witness :
  get (body_of (js "valueOf") (js "1")) (js "language") = JStr (js "valueOf")
  /\ (passes_validation (body_of (js "valueOf") (js "1")) = true
      <-> In (js "valueOf") accepted_languages).
Proof.
  split; [reflexivity|].
  apply (string_language_accepted quiet (body_of (js "valueOf") (js "1")) fresh
           (js "valueOf")); reflexivity.
Defined.

Lemma accepted_starts_with_letter key :
  In key accepted_languages -> starts_with_letter key = true.
Proof.
  intros H.
  assert (Hall : forallb starts_with_letter accepted_languages = true)
    by reflexivity.
  rewrite forallb_forall in Hall. exact (Hall _ H).
Qed.

Lemma numeral_not_a_letter (z : Z) :
  starts_with_letter (js (DecimalString.NilZero.string_of_int (Z.to_int z)))
  = false.
Proof.
  destruct z as [|p|p]; [reflexivity| |];
    cbn [Z.to_int DecimalString.NilZero.string_of_int];
    destruct (Pos.to_uint p); reflexivity.
Qed.

(** X7: a language that is a number, a boolean, null or absent never
    passes validation: the request is answered 400 and the runtime is not
    asked anything. *)
Theorem scalar_language_rejected env body s :
  (exists z, get body (js "language") = JNum z)
  \/ (exists b, get body (js "language") = JBool b)
  \/ get body (js "language") = JNull
  \/ get body (js "language") = JUndefined ->
  passes_validation body = false
  /\ trace (execute env body) s = []
  /\ exists r, execute env body s = (Normal tt, add_sent r s) /\ status r = 400.
Proof.
  intros H.
  assert (Hv : passes_validation body = false).
  { unfold passes_validation.
    destruct H as [[z Hz] | [[b Hb] | [Hn | Hu]]].
    - rewrite Hz.
      change (ToString (JNum z))
        with (Some (js (DecimalString.NilZero.string_of_int (Z.to_int z)))).
      destruct (truthy (get languageImageMap
                  (js (DecimalString.NilZero.string_of_int (Z.to_int z)))))
        eqn:Ht.
      + apply image_truthy_iff, accepted_starts_with_letter in Ht.
        rewrite numeral_not_a_letter in Ht. discriminate.
      + apply andb_false_r.
    - rewrite Hb. destruct b; [|reflexivity].
      change (ToString (JBool true)) with (Some (js "true")).
      replace (truthy (get languageImageMap (js "true"))) with false
        by reflexivity.
      apply andb_false_r.
    - rewrite Hn. reflexivity.
    - rewrite Hu. reflexivity. }
  split; [exact Hv|].
  split; [apply execute_not_validated, Hv|].
  assert (Hu : unconvertible body = false).
  { unfold unconvertible.
    destruct H as [[z Hz] | [[b Hb] | [Hn | Hu]]].
    - rewrite Hz. apply andb_false_r.
    - rewrite Hb. destruct b; [apply andb_false_r | reflexivity].
    - rewrite Hn. reflexivity.
    - rewrite Hu. reflexivity. }
  destruct (execute_rejected env body s Hv Hu) as [E|E];
    eexists; (split; [exact E|]); reflexivity.
Qed.

Lemma scalar_language_rejected_witness :
  get [(js "language", JNum 3); (js "code", JStr (js "1"))] (js "language")
  = JNum 3
  /\ trace (execute quiet [(js "language", JNum 3); (js "code", JStr (js "1"))])
           fresh = [].
Proof.
  split; [reflexivity|].
  apply (scalar_language_rejected quiet
           [(js "language", JNum 3); (js "code", JStr (js "1"))] fresh).
  left. exists 3. reflexivity.
Defined.

(** X8: a language that is not the string 'python' but whose string form
    is "python" (an array around it) selects the python image and is given
    the command of node: every container the request asks for has the image
    [python:3.9-slim] and the command [node -e code]. *)
Theorem coerced_python_runs_node env body s opts :
  ToString (get body (js "language")) = Some (js "python") ->
  get body (js "language") <> JStr (js "python") ->
  In (CreateContainer opts) (trace (execute env body) s) ->
  Image opts = JStr (js "python:3.9-slim")
  /\ Cmd opts = [JStr (js "node"); JStr (js "-e"); get body (js "code")].
Proof.
  intros Hk Hne Hin. destruct (passes_validation body) eqn:Hv.
  - destruct (validated_convertible _ Hv) as [[k1 H1] [k2 H2]].
    rewrite (trace_execute_validated _ _ _ Hv) in Hin.
    rewrite (guarded_run_creates env _ _ _ _ s k1 k2 H1 H2 opts Hin). cbn.
    unfold image_of, cmd_of. rewrite Hk. split; [reflexivity|].
    destruct (get body (js "language")) as [| | | |l| | | |]; try reflexivity.
    cbn. destruct (str_eqb l (js "python")) eqn:E; [|reflexivity].
    apply str_eqb_eq in E. subst l. contradiction.
  - destruct (execute_not_validated env body s Hv) as [Ht _].
    rewrite Ht in Hin. destruct Hin.
Qed.

Lemma coerced_python_runs_node_witness :
  ToString (get array_python (js "language")) = Some (js "python")
  /\ In (CreateContainer
           {| Image := JStr (js "python:3.9-slim");
              Cmd := [JStr (js "node"); JStr (js "-e"); JStr (js "print(1)")];
              Tty := false;
              Host := {| CpuShares := 512; Memory := 268435456;
                         NetworkMode := js "none" |} |})
        (trace (execute quiet array_python) fresh)
  /\ Cmd {| Image := JStr (js "python:3.9-slim");
            Cmd := [JStr (js "node"); JStr (js "-e"); JStr (js "print(1)")];
            Tty := false;
            Host := {| CpuShares := 512; Memory := 268435456;
                       NetworkMode := js "none" |} |}
     = [JStr (js "node"); JStr (js "-e"); get array_python (js "code")].
Proof.
  split; [reflexivity|].
  assert (Hin : In (CreateContainer
           {| Image := JStr (js "python:3.9-slim");
              Cmd := [JStr (js "node"); JStr (js "-e"); JStr (js "print(1)")];
              Tty := false;
              Host := {| CpuShares := 512; Memory := 268435456;
                         NetworkMode := js "none" |} |})
        (trace (execute quiet array_python) fresh)).
  { vm_compute. do 3 right. left. reflexivity. }
  split; [exact Hin|].
  apply (coerced_python_runs_node quiet array_python fresh _ eq_refl).
  - vm_compute. discriminate.
  - exact Hin.
Defined.

(** ** What a request leaves behind *)

(** X9: once a request has got as far as asking for a container, the image
    of its language is local, and no later request for that image pulls it
    again. *)
Theorem image_pulled_once env1 env2 body1 body2 s opts r :
  In (CreateContainer opts) (trace (execute env1 body1) s) ->
  image_of body1 = JStr r ->
  image_of body2 = JStr r ->
  In r (images (snd (execute env1 body1 s)))
  /\ ~ In (Pull (JStr r))
         (trace (execute env2 body2) (snd (execute env1 body1 s))).
Proof.
  intros Hin Hi1 Hi2.
  assert (Hlocal : In r (images (snd (execute env1 body1 s)))).
  { destruct (passes_validation body1) eqn:Hv.
    - destruct (validated_convertible _ Hv) as [[k1 H1] [k2 H2]].
      rewrite (trace_execute_validated _ _ _ Hv) in Hin.
      rewrite (execute_validated _ _ _ Hv).
      exact (guarded_run_image_local env1 _ _ _ _ s k1 k2 H1 H2 opts r Hin Hi1).
    - destruct (execute_not_validated env1 body1 s Hv) as [Ht _].
      rewrite Ht in Hin. destruct Hin. }
  split; [exact Hlocal|].
  destruct (passes_validation body2) eqn:Hv.
  - destruct (validated_convertible _ Hv) as [[k1 H1] [k2 H2]].
    rewrite (trace_execute_validated _ _ _ Hv). rewrite <- Hi2.
    exact (guarded_run_no_pull env2 _ _ _ _ _ k1 k2 H1 H2 r Hi2 Hlocal).
  - destruct (execute_not_validated env2 body2
                (snd (execute env1 body1 s)) Hv) as [Ht _].
    rewrite Ht. intros [].
Qed.

Lemma image_pulled_once_witness :
  In (CreateContainer python_options)
     (trace (execute timed_out python_print) fresh)
  /\ ~ In (Pull (JStr (js "python:3.9-slim")))
         (trace (execute quiet python_print)
                (snd (execute timed_out python_print fresh))).
Proof.
  assert (Hin : In (CreateContainer python_options)
                   (trace (execute timed_out python_print) fresh)).
  { vm_compute. do 3 right. left. reflexivity. }
  split; [exact Hin|].
  apply (image_pulled_once timed_out quiet python_print python_print fresh
           python_options (js "python:3.9-slim") Hin); reflexivity.
Defined.

(** X10: a request never takes an image out of the local store, and the
    only image it can add is the one of its language. *)
Theorem images_kept env body s :
  incl (images s) (images (snd (execute env body s)))
  /\ (forall r, In r (images (snd (execute env body s))) ->
                In r (images s) \/ image_of body = JStr r).
Proof.
  destruct (passes_validation body) eqn:Hv.
  - destruct (validated_convertible _ Hv) as [[k1 H1] [k2 H2]].
    rewrite (execute_validated _ _ _ Hv).
    exact (guarded_run_images env (get body (js "language"))
             (get body (js "code")) (image_of body) (cmd_of body) s k1 k2
             H1 H2).
  - destruct (execute_not_validated env body s Hv) as (_ & _ & ->).
    split; [apply incl_refl | intros r Hr; left; exact Hr].
Qed.

Lemma images_kept_witness :
  incl (images busy) (images (snd (execute quiet python_print busy)))
  /\ In (js "python:3.9-slim") (images (snd (execute quiet python_print busy))).
Proof.
  split; [apply (images_kept quiet python_print busy)|].
  vm_compute. left. reflexivity.
Defined.

(** X11: when the identifier the runtime gives the new container is not
    that of a container already in the list, the request leaves every other
    container in place: the list ends as it was, or as it was plus the new
    container, and the latter only when its removal failed. *)
Theorem other_containers_untouched env body s :
  (forall c, In c (containers s) -> id c <> new_container_id env) ->
  containers (snd (execute env body s)) = containers s
  \/ (containers (snd (execute env body s))
      = containers s
        ++ [mkContainer (new_container_id env)
                        (create_options (image_of body) (cmd_of body))]
      /\ remove_fault env <> None).
Proof.
  intros Hfresh. destruct (passes_validation body) eqn:Hv.
  - destruct (validated_convertible _ Hv) as [[k1 H1] [k2 H2]].
    rewrite (execute_validated _ _ _ Hv).
    destruct (guarded_run_containers_frame env (get body (js "language"))
                (get body (js "code")) (image_of body) (cmd_of body) s k1 k2
                H1 H2 Hfresh)
      as [H | (H & Hr & _)]; [left; exact H | right; split; assumption].
  - destruct (execute_not_validated env body s Hv) as (_ & -> & _).
    left. reflexivity.
Qed.

Lemma other_containers_untouched_witness :
  (forall c, In c (containers busy) -> id c <> new_container_id stuck)
  /\ (containers (snd (execute stuck python_print busy)) = containers busy
      \/ (containers (snd (execute stuck python_print busy))
          = containers busy
            ++ [mkContainer (new_container_id stuck)
                  (create_options (image_of python_print)
                                  (cmd_of python_print))]
          /\ remove_fault stuck <> None)).
Proof.
  assert (Hfresh : forall c, In c (containers busy) ->
                             id c <> new_container_id stuck).
  { intros c [<- | []]. vm_compute. discriminate. }
  split; [exact Hfresh|].
  apply (other_containers_untouched stuck python_print busy Hfresh).
Defined.

(** ** Blank output *)

Lemma trimStart_blank (t : jsstring) :
  forallb is_space t = true -> trimStart t = [].
Proof.
  induction t as [|c t IH]; cbn; [reflexivity|].
  intros H. apply andb_true_iff in H as [Hc Ht]. rewrite Hc. apply IH, Ht.
Qed.

Lemma trim_blank (t : jsstring) :
  forallb is_space t = true -> trim t = [].
Proof.
  intros H. unfold trim, trimEnd. rewrite (trimStart_blank t H). reflexivity.
Qed.

(** X12: when a run goes through and what the container printed is nothing
    or white space only, the [output] of the 200 is the empty string. *)
Theorem blank_output_is_empty env body s :
  passes_validation body = true ->
  first_failure env (images s) (image_of body) = None ->
  forallb is_space (buffered env) = true ->
  sent (snd (execute env body s))
  = sent s ++ [mkResponse 200 [(js "output", JStr [])]].
Proof.
  intros Hv Hf Hb.
  destruct (execute_response env body s Hv) as [_ ->].
  rewrite Hf. unfold output_response. rewrite (trim_blank _ Hb). reflexivity.
Qed.

Lemma blank_output_is_empty_witness :
  forallb is_space (buffered blank_output) = true
  /\ sent (snd (execute blank_output python_print fresh))
     = sent fresh ++ [mkResponse 200 [(js "output", JStr [])]].
Proof.
  split; [reflexivity|].
  apply (blank_output_is_empty blank_output python_print fresh); reflexivity.
Defined.

(** ** pullImage when it fails *)

(** X13: when [pullImage] throws, what it throws is the error of the
    listing, of the pull or of following the pull, whichever came first; the
    local images are as they were, and the last line it wrote is not one
    that says the image was pulled or found. *)
Theorem pullImage_failure env img s k e :
  ToString img = Some k ->
  fst (pullImage env img s) = Throw e ->
  (listImages_fault env = Some e /\ trace (pullImage env img) s = [ListImages img]
   \/ listImages_fault env = None /\ pull_fault env = Some e
      /\ trace (pullImage env img) s = [ListImages img; Pull img]
   \/ listImages_fault env = None /\ pull_fault env = None
      /\ followProgress_fault env = Some e
      /\ trace (pullImage env img) s
         = [ListImages img; Pull img; FollowProgress img])
  /\ images (snd (pullImage env img s)) = images s
  /\ ~ In (LogPulled img) (skipn (length (console s))
                                 (console (snd (pullImage env img s))))
  /\ ~ In (LogFoundLocally img)
          (skipn (length (console s)) (console (snd (pullImage env img s)))).
Proof.
  intros H. unfold trace.
  unfold_run; cbn. rewrite H; cbn.
  repeat (rewrite ?deliver_eq; cbn; run_step).
  all: rewrite <- ?app_assoc; rewrite ?skipn_length_app; cbn.
  all: intros He; try discriminate; injection He as <-.
  all: repeat split; try tauto; intros Hin; clear_in.
Qed.

Lemma pullImage_failure_witness :
  fst (pullImage registry_down (JStr (js "node:18-alpine")) fresh) = Throw boom
  /\ images (snd (pullImage registry_down (JStr (js "node:18-alpine")) fresh))
     = images fresh.
Proof.
  split; [reflexivity|].
  apply (pullImage_failure registry_down (JStr (js "node:18-alpine")) fresh
           (js "node:18-alpine") boom); reflexivity.
Defined.
